(** * Pincer: gateway middleware, guild cache and dispatch

    A shallow embedding of the parts of Pincer that turn gateway events
    into typed objects:

    - [pincer/middleware/guild_role_update.py]  ([guild_role_update_middleware])
    - [pincer/middleware/message_create.py]     ([message_create_middleware])
    - [pincer/objects/guild/guild.py]           ([Guild], [Guild.from_dict])

    together with the session watermark and the handler dispatcher of the
    design document, which live outside these three files and are
    modelled from the document's wording.

    Python objects are mutable and shared: the guild cache [self.guilds]
    is a dictionary from guild ids to references to [Guild] objects, and
    the objects themselves live in an object store.  Assigning
    [guild.roles = ...] changes the object in the store; the dictionary
    is not touched. *)

From Stdlib Require Import ZArith NArith DecimalString.
From stdpp Require Import gmap strings list fin_maps.
From stdpp Require Import pretty.

Set Warnings "-register-all".

(** ** Python values, exceptions and results *)

(** Object references (addresses in the object store). *)
Abbreviation loc := positive.

(** The values that travel in a gateway payload: JSON data, plus
    references to live objects such as the client and its HTTP client,
    which middleware adds under the keys [_client] and [_http]. *)
Inductive value : Type :=
| VNone
| VBool (b : bool)
| VInt (z : Z)
| VStr (s : string)
| VList (l : list value)
| VDict (d : gmap string value)
| VObject (a : loc).

(** Python truth value testing, as used by [if x:]. *)
Definition truthy (v : value) : bool :=
  match v with
  | VNone => false
  | VBool b => b
  | VInt z => negb (Z.eqb z 0)
  | VStr s => negb (String.eqb s "")
  | VList l => match l with [] => false | _ :: _ => true end
  | VDict d => match map_to_list d with [] => false | _ :: _ => true end
  | VObject _ => true
  end.

(** The exceptions that the embedded code can raise. *)
Inductive exn : Type :=
| NameError (name : string)
| KeyError (key : string)
| TypeError (what : string)
| ValueError (what : string)
| UnavailableGuildError (guild : value).

(** A computation either returns or raises. *)
Inductive result (A : Type) : Type :=
| Ok (a : A)
| Raise (e : exn).
Arguments Ok {A} a.
Arguments Raise {A} e.

#[global] Instance result_ret : MRet result := λ A a, Ok a.
#[global] Instance result_bind : MBind result :=
  λ A B f m, match m with Ok a => f a | Raise e => Raise e end.
#[global] Instance result_fmap : FMap result :=
  λ A B f m, match m with Ok a => Ok (f a) | Raise e => Raise e end.

(** [d[key]]: subscripting a dictionary raises [KeyError] on a missing key. *)
Definition getitem (d : gmap string value) (key : string) : result value :=
  match d !! key with
  | Some v => Ok v
  | None => Raise (KeyError key)
  end.

(** [d.get(key, default)]. *)
Definition dict_get (d : gmap string value) (key : string) (dflt : value) : value :=
  default dflt (d !! key).

(** ** Data objects *)

(** Discord ids are unsigned integers ([Snowflake] is an [int] subclass). *)
Abbreviation Snowflake := N.

(** [APINullable[T]]: either a value or the sentinel [MISSING]. *)
Inductive APINullable (T : Type) : Type :=
| MISSING
| Present (x : T).
Arguments MISSING {T}.
Arguments Present {T} x.

(** The [IntEnum] classes of [guild.py], each with its integer value. *)
Module PremiumTier.
Inductive t := NONE | TIER_1 | TIER_2 | TIER_3.
Definition value (x : t) : Z :=
  match x with NONE => 0 | TIER_1 => 1 | TIER_2 => 2 | TIER_3 => 3 end.
End PremiumTier.

Module GuildNSFWLevel.
Inductive t := DEFAULT | EXPLICIT | SAFE | AGE_RESTRICTED.
Definition value (x : t) : Z :=
  match x with DEFAULT => 0 | EXPLICIT => 1 | SAFE => 2 | AGE_RESTRICTED => 3 end.
End GuildNSFWLevel.

Module ExplicitContentFilterLevel.
Inductive t := DISABLED | MEMBERS_WITHOUT_ROLES | ALL_MEMBERS.
Definition value (x : t) : Z :=
  match x with DISABLED => 0 | MEMBERS_WITHOUT_ROLES => 1 | ALL_MEMBERS => 2 end.
End ExplicitContentFilterLevel.

Module MFALevel.
Inductive t := NONE | ELEVATED.
Definition value (x : t) : Z :=
  match x with NONE => 0 | ELEVATED => 1 end.
End MFALevel.

Module VerificationLevel.
Inductive t := NONE | LOW | MEDIUM | HIGH | VERY_HIGH.
Definition value (x : t) : Z :=
  match x with NONE => 0 | LOW => 1 | MEDIUM => 2 | HIGH => 3 | VERY_HIGH => 4 end.
End VerificationLevel.

Module DefaultMessageNotificationLevel.
Inductive t := ALL_MESSAGES | ONLY_MENTIONS.
Definition value (x : t) : Z :=
  match x with ALL_MESSAGES => 0 | ONLY_MENTIONS => 1 end.
End DefaultMessageNotificationLevel.

Module SystemChannelFlags.
Inductive t :=
| SUPPRESS_JOIN_NOTIFICATIONS
| SUPPRESS_PREMIUM_SUBSCRIPTIONS
| SUPPRESS_GUILD_REMINDER_NOTIFICATIONS.
Definition value (x : t) : Z :=
  match x with
  | SUPPRESS_JOIN_NOTIFICATIONS => Z.shiftl 1 0
  | SUPPRESS_PREMIUM_SUBSCRIPTIONS => Z.shiftl 1 1
  | SUPPRESS_GUILD_REMINDER_NOTIFICATIONS => Z.shiftl 1 2
  end.
End SystemChannelFlags.

(** Modelled from the spec: the [Role] class is declared in
    [pincer/objects/guild/role.py], outside the embedded files.  The
    design document uses a role's [id] and [name]; every other attribute
    of a decoded role is kept, undecoded, in [extra]. *)
Module Role.
Record t : Type := mk {
  id : Snowflake;
  name : string;
  extra : gmap string value
}.
End Role.

(** Modelled from the spec: [GuildRoleUpdateEvent]
    ([pincer/objects/events/guild.py]) carries the guild id and the new
    role, as in the payload [{guild_id: .., role: {..}}] of the document's
    scenario. *)
Module GuildRoleUpdateEvent.
Record t : Type := mk {
  guild_id : Snowflake;
  role : Role.t
}.
End GuildRoleUpdateEvent.

(** ** The module namespace of [guild.py]

    A global name is looked up, when the statement that mentions it
    runs, among the names the module has bound.  [guild.py] begins with
    [from __future__ import annotations], so annotations are never
    evaluated, and it imports the classes it needs for annotations under
    [if TYPE_CHECKING:].  That block does not run outside a type
    checker. *)

(** [typing.TYPE_CHECKING] when the program runs. *)
Definition TYPE_CHECKING : bool := false.

(** Names imported by the [if TYPE_CHECKING:] block (lines 13-30). *)
Definition type_checking_imports : list string :=
  [ "Dict"; "List"; "Optional"; "Role"; "Channel"; "Client"; "GuildMember";
    "StageInstance"; "Emoji"; "GuildFeatures"; "Sticker"; "APINullable";
    "Snowflake"; "Timestamp"; "VoiceState"; "WelcomeScreen";
    "UnavailableGuildError"; "PresenceUpdateEvent" ].

(** Names bound at module level: the unconditional imports (lines 4-11)
    and the classes the module defines, plus the conditional imports when
    [TYPE_CHECKING] holds. *)
Definition module_globals : list string :=
  [ "annotations"; "overload"; "TYPE_CHECKING"; "IntEnum"; "dataclass";
    "field"; "MISSING"; "APIObject"; "PremiumTier"; "GuildNSFWLevel";
    "ExplicitContentFilterLevel"; "MFALevel"; "VerificationLevel";
    "DefaultMessageNotificationLevel"; "SystemChannelFlags"; "Guild" ]
  ++ (if TYPE_CHECKING then type_checking_imports else []).

(** Evaluating a global name: [NameError] when the module never bound it
    (none of the names above is a builtin). *)
Definition load_global (name : string) : result unit :=
  if bool_decide (name ∈ module_globals) then Ok () else Raise (NameError name).

(** Classes that [guild.py] only names in annotations and that are
    declared elsewhere in the package.  Their instances are kept as the
    raw values they were decoded from. *)
Abbreviation Emoji := value (only parsing).
Abbreviation GuildFeatures := value (only parsing).
Abbreviation Channel := value (only parsing).
Abbreviation GuildMember := value (only parsing).
Abbreviation PresenceUpdateEvent := value (only parsing).
Abbreviation StageInstance := value (only parsing).
Abbreviation Sticker := value (only parsing).
Abbreviation Timestamp := value (only parsing).
Abbreviation VoiceState := value (only parsing).
Abbreviation WelcomeScreen := value (only parsing).

(** The [Guild] dataclass: the fields of [guild.py] in declaration
    order ([Optional[T]] is [option T]), followed by the two attributes
    every [APIObject] carries, [_client] and [_http]. *)
Module Guild.
Record t : Type := mk {
  afk_channel_id : option Snowflake;
  afk_timeout : Z;
  application_id : option Snowflake;
  embedded_activities : option (list value);
  banner : option string;
  default_message_notifications : DefaultMessageNotificationLevel.t;
  description : option string;
  discovery_splash : option string;
  emojis : list Emoji;
  explicit_content_filter : ExplicitContentFilterLevel.t;
  features : list GuildFeatures;
  id : Snowflake;
  icon : option string;
  mfa_level : MFALevel.t;
  name : string;
  nsfw_level : GuildNSFWLevel.t;
  owner_id : Snowflake;
  preferred_locale : string;
  premium_tier : PremiumTier.t;
  public_updates_channel_id : option Snowflake;
  roles : list Role.t;
  rules_channel_id : option Snowflake;
  splash : option string;
  system_channel_flags : SystemChannelFlags.t;
  system_channel_id : option Snowflake;
  vanity_url_code : option string;
  verification_level : VerificationLevel.t;
  guild_scheduled_events : option (list value);
  lazy : option bool;
  premium_progress_bar_enabled : option bool;
  guild_hashes : option (gmap string value);
  application_command_counts : APINullable (gmap string value);
  application_command_count : APINullable Z;
  approximate_member_count : APINullable Z;
  approximate_presence_count : APINullable Z;
  channels : APINullable (list Channel);
  hub_type : APINullable value;
  icon_hash : APINullable (option string);
  joined_at : APINullable Timestamp;
  large : APINullable bool;
  max_members : APINullable Z;
  max_presences : APINullable (option Z);
  max_video_channel_users : APINullable Z;
  members : APINullable (list GuildMember);
  member_count : APINullable bool;
  nsfw : APINullable bool;
  owner : APINullable bool;
  permissions : APINullable string;
  premium_subscription_count : APINullable Z;
  presences : APINullable (list PresenceUpdateEvent);
  stage_instances : APINullable (list StageInstance);
  stickers : APINullable (list Sticker);
  region : APINullable (option string);
  threads : APINullable (list Channel);
  unavailable : APINullable bool;
  voice_states : APINullable (list VoiceState);
  widget_enabled : APINullable bool;
  widget_channel_id : APINullable (option Snowflake);
  welcome_screen : APINullable WelcomeScreen;
  _client : loc;
  _http : loc
}.

(** The attribute assignment [guild.roles = v]. *)
Definition set_roles (v : list Role.t) (g : t) : t :=
  {|
    afk_channel_id := afk_channel_id g;
    afk_timeout := afk_timeout g;
    application_id := application_id g;
    embedded_activities := embedded_activities g;
    banner := banner g;
    default_message_notifications := default_message_notifications g;
    description := description g;
    discovery_splash := discovery_splash g;
    emojis := emojis g;
    explicit_content_filter := explicit_content_filter g;
    features := features g;
    id := id g;
    icon := icon g;
    mfa_level := mfa_level g;
    name := name g;
    nsfw_level := nsfw_level g;
    owner_id := owner_id g;
    preferred_locale := preferred_locale g;
    premium_tier := premium_tier g;
    public_updates_channel_id := public_updates_channel_id g;
    roles := v;
    rules_channel_id := rules_channel_id g;
    splash := splash g;
    system_channel_flags := system_channel_flags g;
    system_channel_id := system_channel_id g;
    vanity_url_code := vanity_url_code g;
    verification_level := verification_level g;
    guild_scheduled_events := guild_scheduled_events g;
    lazy := lazy g;
    premium_progress_bar_enabled := premium_progress_bar_enabled g;
    guild_hashes := guild_hashes g;
    application_command_counts := application_command_counts g;
    application_command_count := application_command_count g;
    approximate_member_count := approximate_member_count g;
    approximate_presence_count := approximate_presence_count g;
    channels := channels g;
    hub_type := hub_type g;
    icon_hash := icon_hash g;
    joined_at := joined_at g;
    large := large g;
    max_members := max_members g;
    max_presences := max_presences g;
    max_video_channel_users := max_video_channel_users g;
    members := members g;
    member_count := member_count g;
    nsfw := nsfw g;
    owner := owner g;
    permissions := permissions g;
    premium_subscription_count := premium_subscription_count g;
    presences := presences g;
    stage_instances := stage_instances g;
    stickers := stickers g;
    region := region g;
    threads := threads g;
    unavailable := unavailable g;
    voice_states := voice_states g;
    widget_enabled := widget_enabled g;
    widget_channel_id := widget_channel_id g;
    welcome_screen := welcome_screen g;
    _client := _client g;
    _http := _http g
  |}.

(** [Guild.from_dict] (lines 431-438).  [super().from_dict] is
    [APIObject.from_dict], declared in [pincer/utils/api_object.py]; it
    is a parameter here.  [raise UnavailableGuildError(...)] first
    evaluates the name [UnavailableGuildError], then the argument (the
    f-string, which subscripts [data['id']]), then raises. *)
Section from_dict.
Variable super_from_dict : gmap string value → result t.

Definition from_dict (data : gmap string value) : result t :=
  if truthy (dict_get data "unavailable" (VBool false)) then
    _ ← load_global "UnavailableGuildError";
    guild ← getitem data "id";
    Raise (UnavailableGuildError guild)
  else
    super_from_dict data.
End from_dict.
End Guild.

(** ** Gateway payloads, the client and the object store *)

(** Modelled from the spec: the opcodes of section 6.  An opcode the
    client does not know is passed through as [UnknownOpcode]. *)
Inductive Opcode : Type :=
| Dispatch
| Heartbeat
| Identify
| StatusUpdate
| VoiceStateUpdate
| Resume
| Reconnect
| InvalidSession
| Hello
| HeartbeatAck
| UnknownOpcode (code : Z).

(** Modelled from the spec: [GatewayDispatch] ([pincer/core/dispatch.py])
    is the envelope of section 3: opcode, optional sequence number,
    optional event name and the payload data.  The middleware reads
    [payload.data] only. *)
Module GatewayDispatch.
Record t : Type := mk {
  opcode : Opcode;
  sequence : option Z;
  event_name : option string;
  data : value
}.
End GatewayDispatch.
Abbreviation Envelope := GatewayDispatch.t (only parsing).

(** The attributes of the client that the middleware reads: the guild
    cache [self.guilds], a dictionary from guild ids to [Guild] objects
    (held by reference), and [self.http].  [ref] is the reference of the
    client object itself. *)
Module Client.
Record t : Type := mk {
  ref : loc;
  guilds : gmap Snowflake loc;
  http : loc
}.
End Client.

(** The object store: the [Guild] objects that references point to. *)
Abbreviation store := (gmap loc Guild.t).

(** The guild that the cache holds under [guild_id], if any. *)
Definition cached_guild (self : Client.t) (σ : store) (guild_id : Snowflake)
  : option Guild.t :=
  a ← Client.guilds self !! guild_id; σ !! a.

(** ** The middleware *)

(** [**mapping] inside a dictionary display: only a mapping can be
    unpacked. *)
Definition unpack_mapping (v : value) : result (gmap string value) :=
  match v with
  | VDict d => Ok d
  | _ => Raise (TypeError "object is not a mapping")
  end.

Section middleware.
Context {Gateway UserMessage : Type}.

(** [GuildRoleUpdateEvent.from_dict] and [UserMessage.from_dict] are
    inherited from [APIObject], outside the embedded files: parameters. *)
Variable GuildRoleUpdateEvent_from_dict : value → result GuildRoleUpdateEvent.t.
Variable UserMessage_from_dict : value → result UserMessage.

(** The list comprehension of lines 41-44:
    [[role if role.id != event.role.id else event.role for role in guild.roles]]. *)
Definition updated_roles (event : GuildRoleUpdateEvent.t) (roles : list Role.t)
  : list Role.t :=
  (λ role, if bool_decide (Role.id role ≠ Role.id (GuildRoleUpdateEvent.role event))
           then role else GuildRoleUpdateEvent.role event) <$> roles.

(** [guild_role_update_middleware] (lines 19-46).  A [Guild] object is
    always true, so [if guild := self.guilds.get(..)] tests presence in
    the cache.  The assignment changes the object the cache refers to;
    [alter] is that in-place change (a Python reference always points to
    an object, and [alter] leaves the store alone for one that does
    not). *)
Definition guild_role_update_middleware
    (self : Client.t) (gateway : Gateway) (payload : GatewayDispatch.t) (σ : store)
  : result ((string * GuildRoleUpdateEvent.t) * store) :=
  event ← GuildRoleUpdateEvent_from_dict (GatewayDispatch.data payload);
  let σ' :=
    match Client.guilds self !! GuildRoleUpdateEvent.guild_id event with
    | Some guild =>
        alter (λ g, Guild.set_roles (updated_roles event (Guild.roles g)) g) guild σ
    | None => σ
    end in
  Ok (("on_guild_role_update", event), σ').

(** The dictionary display of line 24,
    [{"_client": self, "_http": self.http, **payload.data}]:
    later entries win, so the keys of [payload.data] take precedence. *)
Definition message_create_kwargs (self : Client.t) (data : gmap string value)
  : gmap string value :=
  data ∪ <["_http" := VObject (Client.http self)]>
           (<["_client" := VObject (Client.ref self)]> ∅).

(** [message_create_middleware] (lines 10-26): the name [on_message]
    and a list holding the one decoded message. *)
Definition message_create_middleware
    (self : Client.t) (payload : GatewayDispatch.t)
  : result (string * list UserMessage) :=
  data ← unpack_mapping (GatewayDispatch.data payload);
  message ← UserMessage_from_dict (VDict (message_create_kwargs self data));
  Ok ("on_message", [message]).

End middleware.

(** ** Decoding a role update

    The data-object decode layer of section 6 of the design document,
    [decode<T>(json_value) -> T | DecodeError], for the two classes the
    role update needs.  The package's own [from_dict] methods are outside
    the embedded files. *)

(** Modelled from the spec: decoding an id.  Ids arrive as decimal
    strings, as in the scenario, or as integers. *)
Definition decode_Snowflake (v : value) : result Snowflake :=
  match v with
  | VStr s =>
      match NilZero.uint_of_string s with
      | Some u => Ok (N.of_uint u)
      | None => Raise (ValueError s)
      end
  | VInt z => if Z.leb 0 z then Ok (Z.to_N z) else Raise (ValueError "negative id")
  | _ => Raise (TypeError "id is neither a string nor an integer")
  end.

(** Modelled from the spec: decoding a string attribute. *)
Definition decode_str (v : value) : result string :=
  match v with
  | VStr s => Ok s
  | _ => Raise (TypeError "not a string")
  end.

(** Modelled from the spec: decoding a role from its dictionary.  [id]
    and [name] are required; attributes the model does not list are
    tolerated and kept. *)
Definition decode_Role (v : value) : result Role.t :=
  d ← unpack_mapping v;
  id ← getitem d "id" ≫= decode_Snowflake;
  name ← getitem d "name" ≫= decode_str;
  Ok (Role.mk id name (delete "id" (delete "name" d))).

(** Modelled from the spec: decoding the role-update event from
    [{guild_id: .., role: {..}}]. *)
Definition decode_GuildRoleUpdateEvent (v : value) : result GuildRoleUpdateEvent.t :=
  d ← unpack_mapping v;
  guild_id ← getitem d "guild_id" ≫= decode_Snowflake;
  role ← getitem d "role" ≫= decode_Role;
  Ok (GuildRoleUpdateEvent.mk guild_id role).

(** ** The scenario of section 8

    A Dispatch envelope
    [{opcode:0, seq:5, event_name:GUILD_ROLE_UPDATE,
      data:{guild_id:1, role:{id:9, name:new}}}]
    arrives while the cache holds guild 1 with role 9 named [old]. *)

Definition scenario_payload : GatewayDispatch.t :=
  GatewayDispatch.mk Dispatch (Some 5%Z) (Some "GUILD_ROLE_UPDATE")
    (VDict {[ "guild_id" := VStr "1";
              "role" := VDict {[ "id" := VStr "9"; "name" := VStr "new" ]} ]}).

Definition scenario_guild : Guild.t :=
  {|
    Guild.afk_channel_id := None;
    Guild.afk_timeout := 300;
    Guild.application_id := None;
    Guild.embedded_activities := None;
    Guild.banner := None;
    Guild.default_message_notifications := DefaultMessageNotificationLevel.ALL_MESSAGES;
    Guild.description := None;
    Guild.discovery_splash := None;
    Guild.emojis := [];
    Guild.explicit_content_filter := ExplicitContentFilterLevel.DISABLED;
    Guild.features := [];
    Guild.id := 1%N;
    Guild.icon := None;
    Guild.mfa_level := MFALevel.NONE;
    Guild.name := "guild";
    Guild.nsfw_level := GuildNSFWLevel.DEFAULT;
    Guild.owner_id := 2%N;
    Guild.preferred_locale := "en-US";
    Guild.premium_tier := PremiumTier.NONE;
    Guild.public_updates_channel_id := None;
    Guild.roles := [Role.mk 9%N "old" ∅];
    Guild.rules_channel_id := None;
    Guild.splash := None;
    Guild.system_channel_flags := SystemChannelFlags.SUPPRESS_JOIN_NOTIFICATIONS;
    Guild.system_channel_id := None;
    Guild.vanity_url_code := None;
    Guild.verification_level := VerificationLevel.NONE;
    Guild.guild_scheduled_events := None;
    Guild.lazy := None;
    Guild.premium_progress_bar_enabled := None;
    Guild.guild_hashes := None;
    Guild.application_command_counts := MISSING;
    Guild.application_command_count := MISSING;
    Guild.approximate_member_count := MISSING;
    Guild.approximate_presence_count := MISSING;
    Guild.channels := Present [];
    Guild.hub_type := MISSING;
    Guild.icon_hash := MISSING;
    Guild.joined_at := MISSING;
    Guild.large := MISSING;
    Guild.max_members := MISSING;
    Guild.max_presences := MISSING;
    Guild.max_video_channel_users := MISSING;
    Guild.members := MISSING;
    Guild.member_count := MISSING;
    Guild.nsfw := MISSING;
    Guild.owner := MISSING;
    Guild.permissions := MISSING;
    Guild.premium_subscription_count := MISSING;
    Guild.presences := MISSING;
    Guild.stage_instances := MISSING;
    Guild.stickers := MISSING;
    Guild.region := MISSING;
    Guild.threads := MISSING;
    Guild.unavailable := Present false;
    Guild.voice_states := MISSING;
    Guild.widget_enabled := MISSING;
    Guild.widget_channel_id := MISSING;
    Guild.welcome_screen := MISSING;
    Guild._client := 1%positive;
    Guild._http := 2%positive
  |}.

(** The client object is at reference 1, its HTTP client at 2 and the
    cached guild at 3. *)
Definition scenario_client : Client.t :=
  Client.mk 1%positive {[ 1%N := 3%positive ]} 2%positive.

Definition scenario_store : store := {[ 3%positive := scenario_guild ]}.

(** The same client before any guild was cached. *)
Definition empty_client : Client.t := Client.mk 1%positive ∅ 2%positive.

(** The event that the scenario's payload decodes to. *)
Definition scenario_event : GuildRoleUpdateEvent.t :=
  GuildRoleUpdateEvent.mk 1%N (Role.mk 9%N "new" ∅).

(** A message payload and a decoder that keeps the attributes it is
    given, to run the middleware on. *)
Definition message_payload : GatewayDispatch.t :=
  GatewayDispatch.mk Dispatch (Some 6%Z) (Some "MESSAGE_CREATE")
    (VDict {[ "id" := VStr "7"; "content" := VStr "hi" ]}).

Definition raw_attributes (v : value) : result (gmap string value) :=
  unpack_mapping v.

(** ** The session watermark

    The gateway code is outside the embedded files.  What follows is the
    Session record of section 3 of the design document and the [Ready]
    rule of its section 4.3: "Every inbound envelope with a sequence
    number updates sequence_watermark (monotonic, last-write-wins) and is
    forwarded to the Dispatcher.  Control opcodes (heartbeat-ack,
    reconnect-request, invalid-session) are intercepted here". *)

(** Modelled from the spec: the session states of section 3. *)
Inductive Status : Type :=
| Connecting
| Identifying
| Resuming
| Ready
| Degraded
| Closed.

(** Modelled from the spec: the Session record of section 3. *)
Module Session.
Record t : Type := mk {
  id : option string;
  sequence_watermark : Z;
  shard_index : nat;
  shard_count : nat;
  status : Status
}.

End Session.









(** ** The dispatcher

    The dispatcher code is outside the embedded files.  What follows is
    section 3 of the design document (MiddlewareEntry,
    HandlerRegistration), the four steps of [Dispatcher.handle] in its
    section 4.4 and [on]/[once] of section 4.5, one dispatch at a time. *)

(** Modelled from the spec: the registration modes of section 3. *)
Inductive Mode : Type := Persistent | OnceOnly.

#[global] Instance Mode_eq_dec : EqDecision Mode.
Proof. solve_decision. Defined.

Section dispatcher.
Context {Cache Payload : Type}.

(** Modelled from the spec: a transform (section 3,
    MiddlewareEntry) maps the client context (the cached state) and an
    envelope to an internal event name and a typed payload, and may
    update the cached state; it can fail. *)
Definition Transform : Type :=
  Cache → Envelope → result ((string * Payload) * Cache).

(** Modelled from the spec: the registry, wire event name to
    transform, built once. *)
Definition Registry : Type := gmap string Transform.

(** Modelled from the spec: a user callback receives the typed
    payload; it can fail (section 4.4, step 4). *)
Definition Callback : Type := Payload → result unit.

(** Modelled from the spec: a HandlerRegistration of section 3,
    together with the handle that [on]/[once] returned for it. *)
Record HandlerRegistration : Type := mkHandler {
  handle : nat;
  internal_event_name : string;
  callback : Callback;
  mode : Mode
}.

(** Modelled from the spec: the registrations in registration order,
    and the next free handle. *)
Record Dispatcher : Type := mkDispatcher {
  handlers : list HandlerRegistration;
  next_handle : nat
}.

(** Modelled from the spec: a client that has registered nothing. *)
Definition new_dispatcher : Dispatcher := mkDispatcher [] 0.

(** Modelled from the spec: [on] and [once] of the facade (section
    4.5) append a registration and return its handle. *)
Definition register (m : Mode) (name : string) (cb : Callback) (d : Dispatcher)
  : Dispatcher * nat :=
  (mkDispatcher
     (handlers d ++ [mkHandler (next_handle d) name cb m])
     (S (next_handle d)),
   next_handle d).

(** Modelled from the spec: [on(event_name, callback)]. *)
Definition on := register Persistent.

(** Modelled from the spec: [once(event_name, callback)]. *)
Definition once := register OnceOnly.

(** Modelled from the spec: one handler invocation, that is which
    registration ran and how its callback ended.  A failure is reported
    and stops nothing (step 4). *)
Record Invocation : Type := mkInvocation {
  invoked : nat;
  outcome : result unit
}.

(** Modelled from the spec: what became of one envelope: dropped
    (step 1), a failed transform (step 2), or delivered to handlers
    (step 3). *)
Inductive Outcome : Type :=
| Dropped
| TransformFailed (e : exn)
| Delivered (name : string) (invocations : list Invocation).

(** Modelled from the spec: steps 1 and 2, resolve the transform by
    wire event name and run it. *)
Definition resolve (registry : Registry) (c : Cache) (e : Envelope)
  : option (result ((string * Payload) * Cache)) :=
  wire ← GatewayDispatch.event_name e;
  transform ← registry !! wire;
  Some (transform c e).

(** Modelled from the spec: step 3, the registrations for [name] in
    registration order. *)
Definition registered_for (name : string) (hs : list HandlerRegistration)
  : list HandlerRegistration :=
  filter (λ r, internal_event_name r = name) hs.

(** Modelled from the spec: step 3, invoking one registration with the
    typed payload. *)
Definition invoke (payload : Payload) (r : HandlerRegistration) : Invocation :=
  mkInvocation (handle r) (callback r payload).

(** Modelled from the spec: step 3, a OnceOnly registration for [name]
    is removed when [name] is dispatched. *)
Definition consumed (name : string) (r : HandlerRegistration) : Prop :=
  internal_event_name r = name ∧ mode r = OnceOnly.

#[global] Instance consumed_dec name r : Decision (consumed name r).
Proof. unfold consumed. apply _. Defined.

(** Modelled from the spec: [Dispatcher.handle(envelope)], steps 1 to
    4.  A failed transform leaves dispatcher and cache as they were. *)
Definition dispatch (registry : Registry) (d : Dispatcher) (c : Cache) (e : Envelope)
  : Dispatcher * Cache * Outcome :=
  match resolve registry c e with
  | None => (d, c, Dropped)
  | Some (Raise err) => (d, c, TransformFailed err)
  | Some (Ok ((name, payload), c')) =>
      (mkDispatcher (filter (λ r, ¬ consumed name r) (handlers d)) (next_handle d),
       c',
       Delivered name (invoke payload <$> registered_for name (handlers d)))
  end.

(** Modelled from the spec: what a client does over its lifetime,
    registering handlers and receiving envelopes. *)
Inductive Action : Type :=
| On (name : string) (cb : Callback)
| Once (name : string) (cb : Callback)
| Receive (e : Envelope).

(** Modelled from the spec: a lifetime; the final dispatcher and
    cache, and one outcome per received envelope. *)
Fixpoint run (registry : Registry) (d : Dispatcher) (c : Cache) (acts : list Action)
  : Dispatcher * Cache * list Outcome :=
  match acts with
  | [] => (d, c, [])
  | On name cb :: acts' => run registry (fst (on name cb d)) c acts'
  | Once name cb :: acts' => run registry (fst (once name cb d)) c acts'
  | Receive e :: acts' =>
      let '(d', c', o) := dispatch registry d c e in
      let '(d'', c'', os) := run registry d' c' acts' in
      (d'', c'', o :: os)
  end.

(** How many times registration [h] ran in one outcome, and over a
    lifetime. *)
Definition invocations_in (h : nat) (o : Outcome) : nat :=
  match o with
  | Delivered _ invs => length (filter (λ i, invoked i = h) invs)
  | _ => 0
  end.

Definition invocations_of (h : nat) (os : list Outcome) : nat :=
  sum_list (invocations_in h <$> os).

(** How many of the invocations for [name] ran registration [h]. *)
Definition ran (h : nat) (name : string) (payload : Payload)
    (hs : list HandlerRegistration) : nat :=
  length (filter (λ i, invoked i = h) (invoke payload <$> registered_for name hs)).

(** How many envelopes were delivered under the internal name [name]. *)
Definition delivered_as (name : string) (o : Outcome) : bool :=
  match o with
  | Delivered n _ => bool_decide (n = name)
  | _ => false
  end.

Definition deliveries (name : string) (os : list Outcome) : nat :=
  length (filter (λ o, delivered_as name o = true) os).

(** Handles are issued in increasing order: every registration carries
    a handle below the next free one. *)
Definition handles_issued (d : Dispatcher) : Prop :=
  Forall (λ r, handle r < next_handle d) (handlers d).

(** Handle [h] was issued and no registration carries it any more. *)
Definition retired (h : nat) (d : Dispatcher) : Prop :=
  h < next_handle d ∧ Forall (λ r, handle r ≠ h) (handlers d).

(** Handle [h] was issued for a OnceOnly registration for [name] that is
    still registered, and no other registration carries [h]. *)
Definition pending (h : nat) (name : string) (d : Dispatcher) : Prop :=
  h < next_handle d ∧
  ∃ before cb after,
    handlers d = before ++ mkHandler h name cb OnceOnly :: after ∧
    Forall (λ r, handle r ≠ h) before ∧
    Forall (λ r, handle r ≠ h) after.

End dispatcher.

(** The registry of a client that knows the role-update event, and a
    callback that returns normally. *)
Definition scenario_registry : @Registry store GuildRoleUpdateEvent.t :=
  {[ "GUILD_ROLE_UPDATE" :=
       λ σ e, guild_role_update_middleware decode_GuildRoleUpdateEvent
                scenario_client tt e σ ]}.

Definition quiet_callback : @Callback GuildRoleUpdateEvent.t := λ _, Ok ().

(** ** Effects and the remaining exceptions

    The methods of [Guild] that talk to the HTTP client, and the command
    line entry point, act on the outside world and can fail after they
    have acted. *)

(** Exceptions: those of the middleware, and two more builtin ones. *)
Inductive exception : Type :=
| Builtin (e : exn)
| AttributeError (what : string)
| IndexError (what : string).

(** How a call ends. *)
Inductive completion (A : Type) : Type :=
| Returned (a : A)
| Failed (e : exception).
Arguments Returned {A} a.
Arguments Failed {A} e.

#[global] Instance completion_ret : MRet completion := λ A a, Returned a.
#[global] Instance completion_bind : MBind completion :=
  λ A B f m, match m with Returned a => f a | Failed e => Failed e end.

Definition of_result {A : Type} (r : result A) : completion A :=
  match r with
  | Ok a => Returned a
  | Raise e => Failed (Builtin e)
  end.

(** A computation that performs events of type [E], in order, on top of
    the events performed so far, and then returns or fails.  What was
    performed before a failure stays performed.  An awaited coroutine
    runs to its end before its caller goes on. *)
Definition io (E A : Type) : Type := list E → completion A * list E.

#[global] Instance io_ret {E : Type} : MRet (io E) :=
  λ A a log, (Returned a, log).
#[global] Instance io_bind {E : Type} : MBind (io E) :=
  λ A B f m log,
    match m log with
    | (Returned a, log') => f a log'
    | (Failed e, log') => (Failed e, log')
    end.

Definition lift {E A : Type} (c : completion A) : io E A :=
  λ log, (c, log).

Definition perform {E : Type} (ev : E) : io E unit :=
  λ log, (Returned (), log ++ [ev]).

(** Evaluating the steps of a list comprehension, left to right; the
    first failure ends it. *)
Fixpoint for_each {A B : Type} (f : A → completion B) (l : list A)
  : completion (list B) :=
  match l with
  | [] => Returned []
  | x :: l' => y ← f x; ys ← for_each f l'; Returned (y :: ys)
  end.

(** [for i in v]: the elements of a list, the characters of a string,
    the keys of a dictionary (in the order the map lists them; the
    insertion order of a Python dictionary is not represented); anything
    else is not iterable. *)
Definition iterate (v : value) : completion (list value) :=
  match v with
  | VList l => Returned l
  | VStr s => Returned ((λ ch, VStr (String ch "")) <$> String.list_ascii_of_string s)
  | VDict d => Returned ((λ kv, VStr kv.1) <$> map_to_list d)
  | _ => Failed (Builtin (TypeError "object is not iterable"))
  end.

(** [x or y]. *)
Definition py_or (x y : value) : value := if truthy x then x else y.

(** ** The HTTP methods of [Guild] *)

Module Http.
Inductive Method : Type := GET | PATCH.

(** A request: the HTTP client object it went through, method, path
    and, for [patch], the data sent. *)
Record Request : Type := mkRequest {
  via : loc;
  method : Method;
  path : string;
  body : option (gmap string value)
}.
End Http.

Section guild_methods.

(** The HTTP client ([client.http], [self._http]) is outside the
    embedded files: what a request returns or raises, given the requests
    made before it, is a parameter. *)
Variable respond : list Http.Request → Http.Request → completion value.

(** [Channel.from_dict], [GuildMember.from_dict], [GuildMember.from_id]
    and the constructor of the [Guild] dataclass (called with [**data];
    it runs [APIObject]'s initialisation) are outside the embedded files
    too. *)
Variable Channel_from_dict : value → completion value.
Variable GuildMember_from_dict : value → completion value.
Variable GuildMember_from_id : loc → Snowflake → Z → io Http.Request value.
Variable Guild_init : gmap string value → completion Guild.t.

Definition request (r : Http.Request) : io Http.Request value :=
  λ log, (respond log r, log ++ [r]).

(** [await http.get(path)] and [await http.patch(path, data)]. *)
Definition http_get (http : loc) (path : string) : io Http.Request value :=
  request (Http.mkRequest http Http.GET path None).

Definition http_patch (http : loc) (path : string) (data : gmap string value)
  : io Http.Request value :=
  request (Http.mkRequest http Http.PATCH path (Some data)).

(** [{**i, "_client": client, "_http": http}]: here the client context
    comes last and wins over the keys of [i]. *)
Definition with_context (client http : loc) (i : gmap string value)
  : gmap string value :=
  <["_http" := VObject http]> (<["_client" := VObject client]> i).

(** The receiver of [data.update(..)]: only a dictionary has the
    method. *)
Definition update_receiver (data : value) : completion (gmap string value) :=
  match data with
  | VDict d => Returned d
  | _ => Failed (AttributeError "update")
  end.

(** One step of the comprehension of lines 354-357:
    [Channel.from_dict({**i, "_client": client, "_http": client.http})].
    The name [Channel] is evaluated first. *)
Definition channel_of (client : Client.t) (i : value) : completion value :=
  _ ← of_result (load_global "Channel");
  kwargs ← of_result (unpack_mapping i);
  Channel_from_dict
    (VDict (with_context (Client.ref client) (Client.http client) kwargs)).

(** [Guild.from_id] (lines 349-368). *)
Definition Guild_from_id (client : Client.t) (_id : Z) : io Http.Request Guild.t :=
  data ← http_get (Client.http client) ("/guilds/" +:+ pretty _id);
  channel_data ← http_get (Client.http client)
                   ("/guilds/" +:+ pretty _id +:+ "/channels");
  channels ← lift (items ← iterate (py_or channel_data (VList []));
                   for_each (channel_of client) items);
  d ← lift (update_receiver data);
  lift (Guild_init
          (<["channels" := VList channels]>
             (with_context (Client.ref client) (Client.http client) d))).

(** [Guild.get_member] (lines 370-386).  The name [GuildMember] is
    evaluated before the call is made. *)
Definition Guild_get_member (self : Guild.t) (_id : Z) : io Http.Request value :=
  _ ← lift (of_result (load_global "GuildMember"));
  GuildMember_from_id (Guild._client self) (Guild.id self) _id.

(** [Guild.modify_member] (lines 425-429); [kwargs] are the keyword
    arguments.  The request is awaited in the first statement; the second
    statement evaluates the name [GuildMember], then the dictionary
    display, then calls.  In the path, [self.id] is a [Snowflake], an
    [int], and is formatted like one, in decimal. *)
Definition Guild_modify_member
    (self : Guild.t) (_id : Z) (kwargs : gmap string value)
  : io Http.Request value :=
  data ← http_patch (Guild._http self)
           ("guilds/" +:+ pretty (Guild.id self) +:+ "/members/" +:+ pretty _id)
           kwargs;
  _ ← lift (of_result (load_global "GuildMember"));
  d ← lift (of_result (unpack_mapping data));
  lift (GuildMember_from_dict
          (VDict (with_context (Guild._client self) (Guild._http self) d))).

End guild_methods.

(** ** The command line entry point ([__main__.py]) *)

(** What the entry point does to the outside world. *)
Inductive Effect : Type :=
| OpenBrowser (url : string)
| Print (line : string)
| PrintHelp.

(** The namespace that [parser.parse_args()] returns for the four
    options of lines 23-45: two [store_true] flags, and two options with
    [nargs=1] and [default=None], whose value is a list when given. *)
Module Namespace.
Record t : Type := mk {
  docs : bool;
  version : bool;
  init : option (list string);
  path : option (list string)
}.
End Namespace.

(** [if x:] and [x[0]] for a value that is [None] or a list. *)
Definition given (x : option (list string)) : bool :=
  match x with
  | Some (_ :: _) => true
  | _ => false
  end.

Definition first_of (x : option (list string)) : completion string :=
  match x with
  | None => Failed (Builtin (TypeError "'NoneType' object is not subscriptable"))
  | Some [] => Failed (IndexError "list index out of range")
  | Some (s :: _) => Returned s
  end.

Module Main.
Section main.
(** [pincer.__version__], defined in the package's [__init__.py]. *)
Variable __version__ : string.

(** [display_docs] (lines 4-6). *)
Definition display_docs : io Effect unit :=
  perform (OpenBrowser "https://docs.pincer.dev").

(** [display_version] (lines 9-11): [print] joins its arguments with a
    space. *)
Definition display_version : io Effect unit :=
  perform (Print ("Pincer" +:+ " " +:+ __version__)).

(** [init] (lines 14-15): [pass]. *)
Definition init (project_name project_path : string) : io Effect unit :=
  mret ().

(** [main] (lines 18-59), from the namespace that [parse_args] returned. *)
Definition main (args : Namespace.t) : io Effect unit :=
  if Namespace.docs args then display_docs
  else if Namespace.version args then display_version
  else if given (Namespace.init args) then
    project_name ← lift (first_of (Namespace.init args));
    project_path ← lift (first_of (Namespace.path args));
    init project_name project_path
  else perform PrintHelp.
End main.
End Main.

(** ** Inputs to run the remaining code on *)

(** A second payload that decodes to an event for another role. *)
Definition other_role_payload : GatewayDispatch.t :=
  GatewayDispatch.mk Dispatch (Some 6%Z) (Some "GUILD_ROLE_UPDATE")
    (VDict {[ "guild_id" := VStr "1";
              "role" := VDict {[ "id" := VStr "8"; "name" := VStr "mods" ]} ]}).

Definition other_role_event : GuildRoleUpdateEvent.t :=
  GuildRoleUpdateEvent.mk 1%N (Role.mk 8%N "mods" ∅).

(** A later payload for role 9 of guild 1. *)
Definition renamed_again_payload : GatewayDispatch.t :=
  GatewayDispatch.mk Dispatch (Some 7%Z) (Some "GUILD_ROLE_UPDATE")
    (VDict {[ "guild_id" := VStr "1";
              "role" := VDict {[ "id" := VStr "9"; "name" := VStr "newer" ]} ]}).

Definition renamed_again_event : GuildRoleUpdateEvent.t :=
  GuildRoleUpdateEvent.mk 1%N (Role.mk 9%N "newer" ∅).

(** [payload.data] is a dictionary. *)
Definition is_mapping (v : value) : bool :=
  match v with
  | VDict _ => true
  | _ => false
  end.

(** A heartbeat-like envelope: its data is [None]. *)
Definition empty_payload : GatewayDispatch.t :=
  GatewayDispatch.mk Dispatch (Some 8%Z) (Some "MESSAGE_CREATE") VNone.

(** Servers to run [Guild.from_id] against: one whose guild has no
    channels (its guild object carries a stale [channels] entry), one
    whose guild has a channel, one that answers every request with
    [null], and one that is down. *)
Definition guild_1 : value :=
  VDict {[ "id" := VStr "1"; "channels" := VList [VStr "stale"] ]}.

Definition server_without_channels
  : list Http.Request → Http.Request → completion value :=
  λ _ r, if bool_decide (Http.path r = "/guilds/1")
         then Returned guild_1 else Returned (VList []).

Definition server_with_channels
  : list Http.Request → Http.Request → completion value :=
  λ _ r, if bool_decide (Http.path r = "/guilds/1")
         then Returned guild_1
         else Returned (VList [VDict {[ "id" := VStr "5" ]}]).

Definition server_null : list Http.Request → Http.Request → completion value :=
  λ _ _, Returned VNone.

Definition server_down : list Http.Request → Http.Request → completion value :=
  λ _ _, Failed (Builtin (ValueError "503")).

Definition keep_channel : value → completion value := Returned.
Definition build_scenario_guild : gmap string value → completion Guild.t :=
  λ _, Returned scenario_guild.

(** The two requests of [Guild.from_id], as they reach the HTTP client. *)
Definition get_guild (client : Client.t) (_id : Z) : Http.Request :=
  Http.mkRequest (Client.http client) Http.GET ("/guilds/" +:+ pretty _id) None.

Definition get_channels (client : Client.t) (_id : Z) : Http.Request :=
  Http.mkRequest (Client.http client) Http.GET
    ("/guilds/" +:+ pretty _id +:+ "/channels") None.

(** * Properties *)

(** ** Attribute assignment and the list comprehension *)

Lemma roles_set_roles v g : Guild.roles (Guild.set_roles v g) = v.
Proof. reflexivity. Qed.

Lemma set_roles_set_roles v w g :
  Guild.set_roles v (Guild.set_roles w g) = Guild.set_roles v g.
Proof. reflexivity. Qed.

Lemma set_roles_roles g : Guild.set_roles (Guild.roles g) g = g.
Proof. by destruct g. Qed.

Lemma length_updated_roles event roles :
  length (updated_roles event roles) = length roles.
Proof. unfold updated_roles. apply length_fmap. Qed.

Lemma lookup_updated_roles event roles i :
  updated_roles event roles !! i =
  (λ r, if bool_decide (Role.id r = Role.id (GuildRoleUpdateEvent.role event))
        then GuildRoleUpdateEvent.role event else r) <$> roles !! i.
Proof.
  unfold updated_roles. rewrite list_lookup_fmap.
  destruct (roles !! i) as [r|]; simpl; [|done].
  f_equal. repeat case_bool_decide; congruence.
Qed.

Lemma updated_roles_idemp event roles :
  updated_roles event (updated_roles event roles) = updated_roles event roles.
Proof.
  unfold updated_roles. rewrite <- list_fmap_compose.
  apply list_fmap_ext. intros i r _. simpl.
  repeat case_bool_decide; congruence.
Qed.

Lemma updated_roles_no_match event roles :
  Forall (λ r, Role.id r ≠ Role.id (GuildRoleUpdateEvent.role event)) roles →
  updated_roles event roles = roles.
Proof.
  unfold updated_roles. induction 1 as [|r roles Hr _ IH]; [done|].
  rewrite fmap_cons, IH. by rewrite bool_decide_eq_true_2.
Qed.

(** ** The role-update middleware *)

Section role_update_facts.
Context {Gateway : Type}.
Variable from_dict : value → result GuildRoleUpdateEvent.t.
Implicit Types (self : Client.t) (gateway : Gateway).
Implicit Types (payload : GatewayDispatch.t) (σ : store).
Implicit Types (event : GuildRoleUpdateEvent.t).

(** The store that the middleware leaves behind for a decoded event. *)
Lemma guild_role_update_middleware_Ok self gateway payload σ event :
  from_dict (GatewayDispatch.data payload) = Ok event →
  guild_role_update_middleware from_dict self gateway payload σ =
  Ok (("on_guild_role_update", event),
      match Client.guilds self !! GuildRoleUpdateEvent.guild_id event with
      | Some guild =>
          alter (λ g, Guild.set_roles (updated_roles event (Guild.roles g)) g)
                guild σ
      | None => σ
      end).
Proof. intros Hdec. unfold guild_role_update_middleware. by rewrite Hdec. Qed.

(** A failed decode is the middleware's failure; the store is not
    reached. *)
Lemma guild_role_update_middleware_Raise self gateway payload σ e :
  from_dict (GatewayDispatch.data payload) = Raise e →
  guild_role_update_middleware from_dict self gateway payload σ = Raise e.
Proof. intros Hdec. unfold guild_role_update_middleware. by rewrite Hdec. Qed.

Lemma guild_role_update_middleware_inv self gateway payload σ r σ' :
  guild_role_update_middleware from_dict self gateway payload σ = Ok (r, σ') →
  ∃ event,
    from_dict (GatewayDispatch.data payload) = Ok event ∧
    r = ("on_guild_role_update", event) ∧
    σ' = match Client.guilds self !! GuildRoleUpdateEvent.guild_id event with
         | Some guild =>
             alter (λ g, Guild.set_roles (updated_roles event (Guild.roles g)) g)
                   guild σ
         | None => σ
         end.
Proof.
  destruct (from_dict (GatewayDispatch.data payload)) as [event|e] eqn:Hdec.
  - rewrite (guild_role_update_middleware_Ok _ _ _ _ _ Hdec).
    intros [= <- <-]. by exists event.
  - by rewrite (guild_role_update_middleware_Raise _ _ _ _ _ Hdec).
Qed.

End role_update_facts.

Lemma decode_scenario_payload :
  decode_GuildRoleUpdateEvent (GatewayDispatch.data scenario_payload)
  = Ok scenario_event.
Proof. vm_compute. reflexivity. Qed.

(** C1.  When the cache holds a guild under the event's [guild_id] and
    that guild's roles contain, at some position, a role whose id is the
    event role's id, the middleware returns normally and afterwards that
    position of the cached guild's roles holds the decoded role.
    Replacement is keyed on the role id: every position whose role has
    the event role's id holds the decoded role, every other position
    holds the role it held before, and the list keeps its length.  In the
    scenario of section 8, guild 1 is cached with role 9 named [old];
    afterwards its role 9 is named [new]. *)
Theorem guild_role_update_replaces_cached_role :
  (∀ (Gateway : Type) (from_dict : value → result GuildRoleUpdateEvent.t)
     (self : Client.t) (gateway : Gateway) (payload : GatewayDispatch.t)
     (σ : store) (event : GuildRoleUpdateEvent.t) (g : Guild.t)
     (i : nat) (r : Role.t),
     from_dict (GatewayDispatch.data payload) = Ok event →
     cached_guild self σ (GuildRoleUpdateEvent.guild_id event) = Some g →
     Guild.roles g !! i = Some r →
     Role.id r = Role.id (GuildRoleUpdateEvent.role event) →
     ∃ σ' g',
       guild_role_update_middleware from_dict self gateway payload σ
       = Ok (("on_guild_role_update", event), σ') ∧
       cached_guild self σ' (GuildRoleUpdateEvent.guild_id event) = Some g' ∧
       Guild.roles g' !! i = Some (GuildRoleUpdateEvent.role event) ∧
       length (Guild.roles g') = length (Guild.roles g) ∧
       (∀ j r', Guild.roles g !! j = Some r' →
          Role.id r' = Role.id (GuildRoleUpdateEvent.role event) →
          Guild.roles g' !! j = Some (GuildRoleUpdateEvent.role event)) ∧
       (∀ j r', Guild.roles g !! j = Some r' →
          Role.id r' ≠ Role.id (GuildRoleUpdateEvent.role event) →
          Guild.roles g' !! j = Some r'))
  ∧
  (∃ σ' g' event,
     cached_guild scenario_client scenario_store 1%N = Some scenario_guild ∧
     Guild.roles scenario_guild = [Role.mk 9%N "old" ∅] ∧
     guild_role_update_middleware decode_GuildRoleUpdateEvent
       scenario_client tt scenario_payload scenario_store
     = Ok (("on_guild_role_update", event), σ') ∧
     cached_guild scenario_client σ' 1%N = Some g' ∧
     Guild.roles g' = [Role.mk 9%N "new" ∅]).
Proof.
  split.
  - intros Gateway from_dict self gateway payload σ event g i r Hdec Hg Hi Hid.
    unfold cached_guild in *.
    destruct (Client.guilds self !! GuildRoleUpdateEvent.guild_id event)
      as [a|] eqn:Ha; simpl in Hg; [|done].
    rewrite (guild_role_update_middleware_Ok _ _ gateway _ σ _ Hdec).
    eexists _, (Guild.set_roles (updated_roles event (Guild.roles g)) g).
    split; [reflexivity|].
    simpl. rewrite Ha, lookup_alter_eq, Hg. simpl.
    split; [done|]. split; [|split; [|split]].
    + rewrite lookup_updated_roles, Hi. simpl. by rewrite bool_decide_eq_true_2.
    + apply length_updated_roles.
    + intros j r' Hj Hr'. rewrite lookup_updated_roles, Hj. simpl.
      by rewrite bool_decide_eq_true_2.
    + intros j r' Hj Hr'. rewrite lookup_updated_roles, Hj. simpl.
      by rewrite bool_decide_eq_false_2.
  - eexists _, _, _.
    split; [vm_compute; reflexivity|].
    split; [reflexivity|].
    split; [vm_compute; reflexivity|].
    split; vm_compute; reflexivity.
Qed.

Lemma guild_role_update_replaces_cached_role_witness :
  ∃ σ' g',
    guild_role_update_middleware decode_GuildRoleUpdateEvent
      scenario_client tt scenario_payload scenario_store
    = Ok (("on_guild_role_update", scenario_event), σ') ∧
    cached_guild scenario_client σ' 1%N = Some g' ∧
    Guild.roles g' !! 0 = Some (Role.mk 9%N "new" ∅) ∧
    length (Guild.roles g') = 1 ∧
    (∀ j r', Guild.roles scenario_guild !! j = Some r' →
       Role.id r' = 9%N → Guild.roles g' !! j = Some (Role.mk 9%N "new" ∅)) ∧
    (∀ j r', Guild.roles scenario_guild !! j = Some r' →
       Role.id r' ≠ 9%N → Guild.roles g' !! j = Some r').
Proof.
  apply (proj1 guild_role_update_replaces_cached_role unit
           decode_GuildRoleUpdateEvent scenario_client tt scenario_payload
           scenario_store scenario_event scenario_guild 0 (Role.mk 9%N "old" ∅)).
  - vm_compute. reflexivity.
  - vm_compute. reflexivity.
  - reflexivity.
  - reflexivity.
Defined.

(** C2.  When the event's [guild_id] is not a key of the guild cache,
    the middleware returns normally, with the event, and leaves the
    object store exactly as it was. *)
Theorem guild_role_update_absent_guild_noop :
  ∀ (Gateway : Type) (from_dict : value → result GuildRoleUpdateEvent.t)
    (self : Client.t) (gateway : Gateway) (payload : GatewayDispatch.t)
    (σ : store) (event : GuildRoleUpdateEvent.t),
    from_dict (GatewayDispatch.data payload) = Ok event →
    Client.guilds self !! GuildRoleUpdateEvent.guild_id event = None →
    guild_role_update_middleware from_dict self gateway payload σ
    = Ok (("on_guild_role_update", event), σ).
Proof.
  intros Gateway from_dict self gateway payload σ event Hdec Ha.
  by rewrite (guild_role_update_middleware_Ok _ _ gateway _ σ _ Hdec), Ha.
Qed.

Lemma guild_role_update_absent_guild_noop_witness :
  guild_role_update_middleware decode_GuildRoleUpdateEvent
    empty_client tt scenario_payload scenario_store
  = Ok (("on_guild_role_update", scenario_event), scenario_store).
Proof.
  apply (guild_role_update_absent_guild_noop unit decode_GuildRoleUpdateEvent
           empty_client tt scenario_payload scenario_store scenario_event).
  - vm_compute. reflexivity.
  - reflexivity.
Defined.

(** C3.  For every payload the middleware's result is the pair of the
    name [on_guild_role_update] and the event decoded from
    [payload.data]: it returns that pair when decoding returns the event,
    and raises what decoding raises.  In the scenario of section 8 the
    returned event's role is named [new]. *)
Theorem guild_role_update_middleware_returns_event :
  (∀ (Gateway : Type) (from_dict : value → result GuildRoleUpdateEvent.t)
     (self : Client.t) (gateway : Gateway) (payload : GatewayDispatch.t)
     (σ : store),
     fst <$> guild_role_update_middleware from_dict self gateway payload σ
     = (λ event, ("on_guild_role_update", event))
         <$> from_dict (GatewayDispatch.data payload))
  ∧
  (∃ event σ',
     guild_role_update_middleware decode_GuildRoleUpdateEvent
       scenario_client tt scenario_payload scenario_store
     = Ok (("on_guild_role_update", event), σ') ∧
     Role.name (GuildRoleUpdateEvent.role event) = "new").
Proof.
  split.
  - intros Gateway from_dict self gateway payload σ.
    destruct (from_dict (GatewayDispatch.data payload)) as [event|e] eqn:Hdec.
    + by rewrite (guild_role_update_middleware_Ok _ _ gateway _ σ _ Hdec).
    + by rewrite (guild_role_update_middleware_Raise _ _ gateway _ σ _ Hdec).
  - eexists _, _. split; vm_compute; reflexivity.
Qed.

(** C8.  Running the middleware a second time on the same payload, in
    the state the first run left, leaves that state as it is and returns
    the same pair: the cache side effect is idempotent. *)
Theorem guild_role_update_idempotent :
  ∀ (Gateway : Type) (from_dict : value → result GuildRoleUpdateEvent.t)
    (self : Client.t) (gateway : Gateway) (payload : GatewayDispatch.t)
    (σ σ1 : store) (r : string * GuildRoleUpdateEvent.t),
    guild_role_update_middleware from_dict self gateway payload σ = Ok (r, σ1) →
    guild_role_update_middleware from_dict self gateway payload σ1 = Ok (r, σ1).
Proof.
  intros Gateway from_dict self gateway payload σ σ1 r Hrun.
  apply guild_role_update_middleware_inv in Hrun as (event & Hdec & -> & ->).
  rewrite (guild_role_update_middleware_Ok _ _ gateway _ _ _ Hdec).
  destruct (Client.guilds self !! GuildRoleUpdateEvent.guild_id event)
    as [a|]; [|done].
  do 2 f_equal. apply alter_id. intros g'.
  rewrite lookup_alter_eq. destruct (σ !! a) as [g|]; simpl; [|done].
  intros [= <-]. simpl. by rewrite updated_roles_idemp.
Qed.

Lemma guild_role_update_idempotent_witness :
  guild_role_update_middleware decode_GuildRoleUpdateEvent scenario_client tt
    scenario_payload
    (<[3%positive := Guild.set_roles [Role.mk 9%N "new" ∅] scenario_guild]>
       scenario_store)
  = Ok (("on_guild_role_update", scenario_event),
        <[3%positive := Guild.set_roles [Role.mk 9%N "new" ∅] scenario_guild]>
          scenario_store).
Proof.
  apply (guild_role_update_idempotent unit decode_GuildRoleUpdateEvent
           scenario_client tt scenario_payload scenario_store).
  vm_compute. reflexivity.
Defined.

(** C9.  Frame.  A run of the middleware that returns [event] changes
    the object store in at most one place, the [Guild] object that the
    cache holds under the event's [guild_id]:
    - every other object, so every other guild, is what it was, and no
      object is created or deleted;
    - the matched guild differs from its old self in [roles] only
      (putting the old roles back gives the old guild);
    - its new roles have the old length, and position by position hold
      the old role when that role's id differs from the event role's id
      and the event's role otherwise, so order is kept;
    - when no old role has the event role's id, the guild is unchanged:
      the event's role is not inserted.
    The cache dictionary itself is read, never written. *)
Theorem guild_role_update_frame :
  ∀ (Gateway : Type) (from_dict : value → result GuildRoleUpdateEvent.t)
    (self : Client.t) (gateway : Gateway) (payload : GatewayDispatch.t)
    (σ σ' : store) (name : string) (event : GuildRoleUpdateEvent.t),
    guild_role_update_middleware from_dict self gateway payload σ
    = Ok ((name, event), σ') →
    (∀ a, Client.guilds self !! GuildRoleUpdateEvent.guild_id event ≠ Some a →
          σ' !! a = σ !! a) ∧
    dom σ' = dom σ ∧
    (∀ a g,
       Client.guilds self !! GuildRoleUpdateEvent.guild_id event = Some a →
       σ !! a = Some g →
       ∃ g',
         σ' !! a = Some g' ∧
         Guild.set_roles (Guild.roles g) g' = g ∧
         length (Guild.roles g') = length (Guild.roles g) ∧
         (∀ i r, Guild.roles g !! i = Some r →
            Guild.roles g' !! i =
            Some (if bool_decide
                       (Role.id r = Role.id (GuildRoleUpdateEvent.role event))
                  then GuildRoleUpdateEvent.role event else r)) ∧
         (∀ i, Guild.roles g !! i = None → Guild.roles g' !! i = None) ∧
         ((∀ r, r ∈ Guild.roles g →
             Role.id r ≠ Role.id (GuildRoleUpdateEvent.role event)) →
          g' = g)).
Proof.
  intros Gateway from_dict self gateway payload σ σ' name event Hrun.
  apply guild_role_update_middleware_inv in Hrun as (event' & Hdec & [= -> <-] & ->).
  split; [|split].
  - intros a Ha.
    destruct (Client.guilds self !! GuildRoleUpdateEvent.guild_id event)
      as [b|]; [|done].
    apply lookup_alter_ne. congruence.
  - destruct (Client.guilds self !! GuildRoleUpdateEvent.guild_id event)
      as [b|]; [|done].
    apply dom_alter_L.
  - intros a g -> Hg.
    exists (Guild.set_roles (updated_roles event (Guild.roles g)) g).
    rewrite lookup_alter_eq, Hg. simpl.
    split; [done|]. split; [by destruct g|].
    split; [apply length_updated_roles|].
    split; [|split].
    + intros i r Hi. by rewrite lookup_updated_roles, Hi.
    + intros i Hi. by rewrite lookup_updated_roles, Hi.
    + intros Hno. rewrite updated_roles_no_match.
      * apply set_roles_roles.
      * by apply Forall_forall.
Qed.

Lemma guild_role_update_frame_witness :
  ∃ σ',
    guild_role_update_middleware decode_GuildRoleUpdateEvent scenario_client tt
      scenario_payload scenario_store
    = Ok (("on_guild_role_update", scenario_event), σ') ∧
    (∀ a, Client.guilds scenario_client !! 1%N ≠ Some a →
          σ' !! a = scenario_store !! a) ∧
    dom σ' = dom scenario_store ∧
    ∃ g',
      σ' !! 3%positive = Some g' ∧
      Guild.set_roles (Guild.roles scenario_guild) g' = scenario_guild ∧
      length (Guild.roles g') = 1.
Proof.
  eexists. split; [vm_compute; reflexivity|].
  pose proof (guild_role_update_frame unit decode_GuildRoleUpdateEvent
                scenario_client tt scenario_payload scenario_store _ _
                scenario_event eq_refl) as (Hother & Hdom & Hguild).
  split; [exact Hother|]. split; [exact Hdom|].
  destruct (Hguild 3%positive scenario_guild eq_refl eq_refl)
    as (g' & Hg' & Hrest & Hlen & _).
  exists g'. split; [exact Hg'|]. split; [exact Hrest | exact Hlen].
Defined.

(** ** The message-create middleware *)

(** What the dictionary display holds under each key: the entry of
    [payload.data] when there is one, else the client context. *)
Lemma lookup_message_create_kwargs self data key :
  message_create_kwargs self data !! key =
  match data !! key with
  | Some v => Some v
  | None =>
      if decide (key = "_client") then Some (VObject (Client.ref self))
      else if decide (key = "_http") then Some (VObject (Client.http self))
      else None
  end.
Proof.
  unfold message_create_kwargs. rewrite lookup_union.
  destruct (data !! key) as [v|]; simpl.
  - by destruct (_ !! key).
  - rewrite (left_id None _).
    destruct (decide (key = "_client")) as [->|Hc]; [done|].
    destruct (decide (key = "_http")) as [->|Hh]; [done|].
    by rewrite !lookup_insert_ne, lookup_empty.
Qed.

(** C4.  The middleware returns a pair: the internal event name
    [on_message] and the typed payload, a list holding exactly one
    message, the one that [UserMessage.from_dict] decodes from the
    dictionary made of [payload.data] and the client context ([_client],
    [_http]).  The second part says what that dictionary is. *)
Theorem message_create_middleware_returns_message :
  (∀ (UserMessage : Type) (from_dict : value → result UserMessage)
     (self : Client.t) (payload : GatewayDispatch.t)
     (data : gmap string value) (message : UserMessage),
     GatewayDispatch.data payload = VDict data →
     from_dict (VDict (message_create_kwargs self data)) = Ok message →
     message_create_middleware from_dict self payload
     = Ok ("on_message", [message]))
  ∧
  (∀ (self : Client.t) (data : gmap string value) (key : string),
     message_create_kwargs self data !! key =
     match data !! key with
     | Some v => Some v
     | None =>
         if decide (key = "_client") then Some (VObject (Client.ref self))
         else if decide (key = "_http") then Some (VObject (Client.http self))
         else None
     end).
Proof.
  split.
  - intros UserMessage from_dict self payload data message Hdata Hdec.
    unfold message_create_middleware. rewrite Hdata. simpl. by rewrite Hdec.
  - apply lookup_message_create_kwargs.
Qed.

Lemma message_create_middleware_returns_message_witness :
  message_create_middleware raw_attributes scenario_client message_payload
  = Ok ("on_message",
        [ {[ "id" := VStr "7"; "content" := VStr "hi";
             "_client" := VObject 1%positive; "_http" := VObject 2%positive ]}
          : gmap string value ]).
Proof.
  apply (proj1 message_create_middleware_returns_message
           (gmap string value) raw_attributes scenario_client message_payload
           {[ "id" := VStr "7"; "content" := VStr "hi" ]}).
  - reflexivity.
  - vm_compute. reflexivity.
Defined.

(** Failures are passed on: a payload whose data is not a mapping, and a
    decoder that raises. *)
Lemma message_create_middleware_Raise
    {UserMessage : Type} (from_dict : value → result UserMessage)
    self payload data e :
  GatewayDispatch.data payload = VDict data →
  from_dict (VDict (message_create_kwargs self data)) = Raise e →
  message_create_middleware from_dict self payload = Raise e.
Proof.
  intros Hdata Hdec. unfold message_create_middleware.
  rewrite Hdata. simpl. by rewrite Hdec.
Qed.

(** ** [Guild.from_dict] *)

Lemma load_UnavailableGuildError :
  load_global "UnavailableGuildError" = Raise (NameError "UnavailableGuildError").
Proof. vm_compute. reflexivity. Qed.

(** A truthy [unavailable] entry: the [raise] statement starts by
    evaluating a name the module never bound. *)
Lemma from_dict_unavailable super_from_dict data :
  truthy (dict_get data "unavailable" (VBool false)) = true →
  Guild.from_dict super_from_dict data
  = Raise (NameError "UnavailableGuildError").
Proof.
  intros Htrue. unfold Guild.from_dict.
  by rewrite Htrue, load_UnavailableGuildError.
Qed.

(** An absent or falsy [unavailable] entry: decoding is the parent
    class's. *)
Lemma from_dict_available super_from_dict data :
  truthy (dict_get data "unavailable" (VBool false)) = false →
  Guild.from_dict super_from_dict data = super_from_dict data.
Proof. intros Hfalse. unfold Guild.from_dict. by rewrite Hfalse. Qed.

(** [Guild.from_dict] raises [UnavailableGuildError] only if the parent
    class's [from_dict] does. *)
Lemma from_dict_never_UnavailableGuildError super_from_dict data guild :
  Guild.from_dict super_from_dict data = Raise (UnavailableGuildError guild) →
  super_from_dict data = Raise (UnavailableGuildError guild).
Proof.
  destruct (truthy (dict_get data "unavailable" (VBool false))) eqn:Ht.
  - by rewrite (from_dict_unavailable _ _ Ht).
  - by rewrite (from_dict_available _ _ Ht).
Qed.

(** C10.  On [{"unavailable": True, "id": "1"}], where the claim (and
    the [raise] statement as written) call for [UnavailableGuildError],
    [Guild.from_dict] raises [NameError]: [UnavailableGuildError] is
    imported under [if TYPE_CHECKING:] only. *)
Theorem Guild_from_dict_unavailable_NameError :
  ∀ super_from_dict : gmap string value → result Guild.t,
    truthy (dict_get {[ "unavailable" := VBool true; "id" := VStr "1" ]}
              "unavailable" (VBool false)) = true ∧
    Guild.from_dict super_from_dict
      {[ "unavailable" := VBool true; "id" := VStr "1" ]}
    = Raise (NameError "UnavailableGuildError").
Proof.
  intros super_from_dict. split.
  - vm_compute. reflexivity.
  - apply from_dict_unavailable. vm_compute. reflexivity.
Qed.

(** ** The session watermark *)










(** ** The dispatcher *)

Section dispatcher_facts.
Context {Cache Payload : Type}.
Implicit Types (registry : @Registry Cache Payload).
Implicit Types (d : @Dispatcher Payload) (c : Cache).
Implicit Types (r : @HandlerRegistration Payload).
Implicit Types (hs : list (@HandlerRegistration Payload)).
Implicit Types (acts : list (@Action Payload)) (os : list Outcome).

Lemma ran_app h name payload hs1 hs2 :
  ran h name payload (hs1 ++ hs2)
  = ran h name payload hs1 + ran h name payload hs2.
Proof.
  unfold ran, registered_for.
  by rewrite filter_app, fmap_app, filter_app, length_app.
Qed.

Lemma ran_cons h name payload r hs :
  ran h name payload (r :: hs)
  = (if bool_decide (internal_event_name r = name ∧ handle r = h) then 1 else 0)
    + ran h name payload hs.
Proof.
  unfold ran, registered_for. rewrite filter_cons.
  destruct (decide (internal_event_name r = name)) as [Hn|Hn].
  - rewrite fmap_cons, filter_cons. simpl.
    destruct (decide (handle r = h)) as [Hh|Hh].
    + by rewrite bool_decide_eq_true_2.
    + rewrite bool_decide_eq_false_2; [done|]. by intros [_ ?].
  - rewrite bool_decide_eq_false_2; [done|]. by intros [? _].
Qed.

Lemma ran_other h name payload hs :
  Forall (λ r, handle r ≠ h) hs → ran h name payload hs = 0.
Proof.
  induction 1 as [|r hs Hr _ IH]; [done|].
  rewrite ran_cons, IH, bool_decide_eq_false_2; [done|]. by intros [_ ?].
Qed.

Lemma Forall_kept (P : @HandlerRegistration Payload → Prop) name hs :
  Forall P hs → Forall P (filter (λ r, ¬ consumed name r) hs).
Proof.
  rewrite !Forall_forall. intros HP r [_ Hr]%list_elem_of_filter. by apply HP.
Qed.

(** Registering never disturbs a retired or a pending handle. *)
Lemma register_retired h m name cb d :
  retired h d → retired h (register m name cb d).1.
Proof.
  intros [Hlt Hall]. split; simpl; [lia|].
  apply Forall_app. split; [done|].
  apply Forall_singleton. simpl. lia.
Qed.

Lemma register_pending h E m name cb d :
  pending h E d → pending h E (register m name cb d).1.
Proof.
  intros (Hlt & before & cb' & after & Hhs & Hb & Ha). split; simpl; [lia|].
  exists before, cb', (after ++ [mkHandler (next_handle d) name cb m]).
  split; [by rewrite Hhs, <- app_assoc|]. split; [done|].
  apply Forall_app. split; [done|].
  apply Forall_singleton. simpl. lia.
Qed.

(** A handle just issued by [once] is pending. *)
Lemma once_pending E cb d :
  handles_issued d → pending (once E cb d).2 E (once E cb d).1.
Proof.
  intros Hissued. split; simpl; [lia|].
  exists (handlers d), cb, []. split; [done|]. split; [|done].
  eapply Forall_impl; [exact Hissued|]. simpl. intros r Hr. lia.
Qed.

(** Dispatching never runs a retired handle, and it stays retired. *)
Lemma dispatch_retired h registry d c e :
  retired h d →
  retired h (dispatch registry d c e).1.1 ∧
  invocations_in h (dispatch registry d c e).2 = 0.
Proof.
  intros [Hlt Hall]. unfold dispatch.
  destruct (resolve registry c e) as [[[[name payload] c']|err]|]; simpl;
    [|done..].
  split; [split; [done|by apply Forall_kept]|].
  by apply (ran_other h name payload).
Qed.

Lemma run_retired h registry acts :
  ∀ d c, retired h d → invocations_of h (run registry d c acts).2 = 0.
Proof.
  induction acts as [|[name cb|name cb|e] acts IH]; intros d c Hret; simpl.
  - done.
  - apply IH. by apply register_retired.
  - apply IH. by apply register_retired.
  - destruct (dispatch_retired h registry d c e Hret) as [Hret' Hzero].
    destruct (dispatch registry d c e) as [[d' c'] o]. simpl in *.
    specialize (IH d' c' Hret').
    destruct (run registry d' c' acts) as [[d'' c''] os]. simpl in *.
    unfold invocations_of in *. rewrite fmap_cons. simpl. lia.
Qed.

(** Dispatching with a pending handle: either the envelope is delivered
    under the handle's event name, the handle runs once and is retired,
    or it is not, the handle does not run and stays pending. *)
Lemma dispatch_pending h E registry d c e :
  pending h E d →
  (delivered_as E (dispatch registry d c e).2 = true ∧
   invocations_in h (dispatch registry d c e).2 = 1 ∧
   retired h (dispatch registry d c e).1.1)
  ∨
  (delivered_as E (dispatch registry d c e).2 = false ∧
   invocations_in h (dispatch registry d c e).2 = 0 ∧
   pending h E (dispatch registry d c e).1.1).
Proof.
  intros (Hlt & before & cb & after & Hhs & Hb & Ha). unfold dispatch.
  destruct (resolve registry c e) as [[[[name payload] c']|err]|]; simpl.
  - rewrite Hhs.
    change (length (filter (λ i, invoked i = h)
              (invoke payload <$> registered_for name
                 (before ++ mkHandler h E cb OnceOnly :: after))))
      with (ran h name payload (before ++ mkHandler h E cb OnceOnly :: after)).
    rewrite ran_app, ran_cons, (ran_other _ _ _ before Hb),
      (ran_other _ _ _ after Ha). simpl.
    rewrite filter_app, filter_cons.
    destruct (decide (name = E)) as [->|Hne].
    + left. rewrite bool_decide_eq_true_2 by done.
      rewrite bool_decide_eq_true_2 by done.
      split; [done|]. split; [done|]. split; [done|].
      rewrite decide_False by (intros Hn; apply Hn; by split).
      apply Forall_app. split; by apply Forall_kept.
    + right. rewrite bool_decide_eq_false_2 by done.
      rewrite bool_decide_eq_false_2 by (intros [? _]; congruence).
      split; [done|]. split; [done|]. split; [done|].
      rewrite decide_True by (intros [? _]; simpl in *; congruence).
      eexists _, cb, _. split; [reflexivity|].
      split; by apply Forall_kept.
  - right. split; [done|]. split; [done|]. split; [done|].
    by exists before, cb, after.
  - right. split; [done|]. split; [done|]. split; [done|].
    by exists before, cb, after.
Qed.

Lemma deliveries_cons E o os :
  deliveries E (o :: os) = (if delivered_as E o then 1 else 0) + deliveries E os.
Proof.
  unfold deliveries. rewrite filter_cons.
  destruct (delivered_as E o); by destruct (decide _).
Qed.

(** Over any lifetime a pending handle runs once if an envelope is
    delivered under its event name, and not at all otherwise. *)
Lemma run_pending h E registry acts :
  ∀ d c,
    pending h E d →
    invocations_of h (run registry d c acts).2
    = Nat.min 1 (deliveries E (run registry d c acts).2).
Proof.
  induction acts as [|[name cb|name cb|e] acts IH]; intros d c Hpend; simpl.
  - done.
  - apply IH. by apply register_pending.
  - apply IH. by apply register_pending.
  - pose proof (dispatch_pending h E registry d c e Hpend) as Hd.
    pose proof (run_retired h registry acts) as Hret.
    destruct (dispatch registry d c e) as [[d' c'] o]. simpl in *.
    specialize (IH d' c'). specialize (Hret d' c').
    destruct (run registry d' c' acts) as [[d'' c''] os]. simpl in *.
    rewrite deliveries_cons. unfold invocations_of in *.
    rewrite fmap_cons. simpl.
    destruct Hd as [(-> & -> & Hr)|(-> & -> & Hp)].
    + rewrite (Hret Hr). simpl. lia.
    + rewrite (IH Hp). simpl. lia.
Qed.

End dispatcher_facts.

(** C6.  Take any dispatcher whose handles were issued by [on]/[once],
    and register a callback OnceOnly for the internal event [E]; let [h]
    be the handle of that registration.
    - Over any lifetime that follows (registrations and received
      envelopes, in any order) the registration runs exactly once if some
      envelope is delivered as [E], and never otherwise.
    - In particular, for two envelopes that both map to [E]: the first
      dispatch runs it once and removes it, the second does not run it,
      and no later dispatch ever runs it again. *)
Theorem once_only_handler_runs_exactly_once :
  ∀ (Cache Payload : Type) (registry : @Registry Cache Payload)
    (d : @Dispatcher Payload) (E : string) (cb : @Callback Payload),
    handles_issued d →
    let d1 := (once E cb d).1 in
    let h := (once E cb d).2 in
    (∀ (acts : list Action) (c : Cache),
       invocations_of h (run registry d1 c acts).2
       = Nat.min 1 (deliveries E (run registry d1 c acts).2))
    ∧
    (∀ (c c1 c2 : Cache) (e1 e2 : GatewayDispatch.t) (p1 p2 : Payload),
       resolve registry c e1 = Some (Ok ((E, p1), c1)) →
       resolve registry c1 e2 = Some (Ok ((E, p2), c2)) →
       ∃ d2 d3 o1 o2,
         dispatch registry d1 c e1 = (d2, c1, o1) ∧
         dispatch registry d2 c1 e2 = (d3, c2, o2) ∧
         invocations_in h o1 = 1 ∧
         invocations_in h o2 = 0 ∧
         invocations_of h (run registry d1 c [Receive e1; Receive e2]).2 = 1 ∧
         Forall (λ r, handle r ≠ h) (handlers d2) ∧
         ∀ (acts : list Action) (c' : Cache),
           invocations_of h (run registry d2 c' acts).2 = 0).
Proof.
  intros Cache Payload registry d E cb Hissued d1 h.
  pose proof (once_pending E cb d Hissued) as Hpend. fold d1 h in Hpend.
  split; [intros acts c; by apply run_pending|].
  intros c c1 c2 e1 e2 p1 p2 He1 He2.
  pose proof (dispatch_pending h E registry d1 c e1 Hpend) as H1.
  assert (∃ d2 o1, dispatch registry d1 c e1 = (d2, c1, o1) ∧
                   delivered_as E o1 = true) as (d2 & o1 & Hd1 & Hdel1).
  { unfold dispatch. rewrite He1. eexists _, _. split; [reflexivity|].
    simpl. by rewrite bool_decide_eq_true_2. }
  rewrite Hd1 in H1. simpl in H1.
  destruct H1 as [(_ & Hone & Hret)|(Hno & _)]; [|congruence].
  pose proof (dispatch_retired h registry d2 c1 e2 Hret) as [Hret3 Hzero].
  assert (∃ d3 o2, dispatch registry d2 c1 e2 = (d3, c2, o2))
    as (d3 & o2 & Hd2).
  { unfold dispatch. rewrite He2. by eexists _, _. }
  rewrite Hd2 in Hret3, Hzero. simpl in Hret3, Hzero.
  exists d2, d3, o1, o2.
  split; [done|]. split; [done|]. split; [done|]. split; [done|].
  split; [|split].
  - simpl. rewrite Hd1, Hd2. unfold invocations_of. simpl. lia.
  - by destruct Hret.
  - intros acts c'. by apply run_retired.
Qed.

Lemma once_only_handler_runs_exactly_once_witness :
  invocations_of 0
    (run scenario_registry (once "on_guild_role_update" quiet_callback
                              new_dispatcher).1
       scenario_store [Receive scenario_payload; Receive scenario_payload]).2
  = Nat.min 1
      (deliveries "on_guild_role_update"
         (run scenario_registry (once "on_guild_role_update" quiet_callback
                                   new_dispatcher).1
            scenario_store [Receive scenario_payload; Receive scenario_payload]).2).
Proof.
  apply (proj1 (once_only_handler_runs_exactly_once
                  store GuildRoleUpdateEvent.t scenario_registry
                  new_dispatcher "on_guild_role_update" quiet_callback
                  (List.Forall_nil _))).
Defined.

(** The scenario run end to end: two role updates reach a client with
    one OnceOnly handler; both are delivered, the handler runs once. *)
Example once_only_scenario :
  let os :=
    (run scenario_registry
       (once "on_guild_role_update" quiet_callback new_dispatcher).1
       scenario_store [Receive scenario_payload; Receive scenario_payload]).2 in
  deliveries "on_guild_role_update" os = 2 ∧ invocations_of 0 os = 1.
Proof. vm_compute. split; reflexivity. Qed.

(** * Further properties of the embedded code *)

(** ** Role updates: what stays and how updates compose *)

Lemma ids_updated_roles event roles :
  Role.id <$> updated_roles event roles = Role.id <$> roles.
Proof.
  unfold updated_roles. rewrite <- list_fmap_compose.
  apply list_fmap_ext. intros i r _. simpl.
  case_bool_decide as Hid; congruence.
Qed.

Lemma updated_roles_comm ev1 ev2 roles :
  Role.id (GuildRoleUpdateEvent.role ev1) ≠ Role.id (GuildRoleUpdateEvent.role ev2) →
  updated_roles ev2 (updated_roles ev1 roles)
  = updated_roles ev1 (updated_roles ev2 roles).
Proof.
  intros Hne. unfold updated_roles. rewrite <- !list_fmap_compose.
  apply list_fmap_ext. intros i r _. simpl.
  repeat case_bool_decide; congruence.
Qed.

Lemma updated_roles_absorb ev1 ev2 roles :
  Role.id (GuildRoleUpdateEvent.role ev1) = Role.id (GuildRoleUpdateEvent.role ev2) →
  updated_roles ev2 (updated_roles ev1 roles) = updated_roles ev2 roles.
Proof.
  intros Heq. unfold updated_roles. rewrite <- list_fmap_compose.
  apply list_fmap_ext. intros i r _. simpl.
  repeat case_bool_decide; congruence.
Qed.

(** The change of the store that a decoded event makes. *)
Lemma alter_roles_lookup (ev : GuildRoleUpdateEvent.t) (a k : loc) (σ : store) :
  alter (λ g, Guild.set_roles (updated_roles ev (Guild.roles g)) g) a σ !! k
  = (if decide (a = k)
     then (λ g, Guild.set_roles (updated_roles ev (Guild.roles g)) g) <$> σ !! k
     else σ !! k).
Proof. rewrite lookup_alter. by destruct (decide (a = k)) as [->|]. Qed.

(** X1.  A role update never changes which role ids a cached guild
    has, nor their order: for every object of the store, the list of the
    ids of its roles is the same before and after the middleware ran. *)
Theorem guild_role_update_preserves_role_ids :
  ∀ (Gateway : Type) (from_dict : value → result GuildRoleUpdateEvent.t)
    (self : Client.t) (gateway : Gateway) (payload : GatewayDispatch.t)
    (σ σ' : store) (r : string * GuildRoleUpdateEvent.t)
    (a : loc) (g g' : Guild.t),
    guild_role_update_middleware from_dict self gateway payload σ = Ok (r, σ') →
    σ !! a = Some g →
    σ' !! a = Some g' →
    Role.id <$> Guild.roles g' = Role.id <$> Guild.roles g.
Proof.
  intros Gateway from_dict self gateway payload σ σ' r a g g' Hrun Hg Hg'.
  apply guild_role_update_middleware_inv in Hrun as (event & _ & _ & ->).
  destruct (Client.guilds self !! GuildRoleUpdateEvent.guild_id event)
    as [b|]; [|congruence].
  rewrite alter_roles_lookup, Hg in Hg'.
  destruct (decide (b = a)); simpl in Hg'; injection Hg' as <-; [|done].
  simpl. apply ids_updated_roles.
Qed.

Lemma guild_role_update_preserves_role_ids_witness :
  Role.id <$> Guild.roles (Guild.set_roles [Role.mk 9%N "new" ∅] scenario_guild)
  = Role.id <$> Guild.roles scenario_guild.
Proof.
  eapply (guild_role_update_preserves_role_ids unit decode_GuildRoleUpdateEvent
            scenario_client tt scenario_payload scenario_store _
            ("on_guild_role_update", scenario_event) 3%positive).
  - vm_compute. reflexivity.
  - reflexivity.
  - vm_compute. reflexivity.
Defined.

Lemma alter_roles_comm ev1 ev2 (a b : loc) (σ : store) :
  Role.id (GuildRoleUpdateEvent.role ev1) ≠ Role.id (GuildRoleUpdateEvent.role ev2) →
  alter (λ g, Guild.set_roles (updated_roles ev2 (Guild.roles g)) g) b
    (alter (λ g, Guild.set_roles (updated_roles ev1 (Guild.roles g)) g) a σ)
  = alter (λ g, Guild.set_roles (updated_roles ev1 (Guild.roles g)) g) a
      (alter (λ g, Guild.set_roles (updated_roles ev2 (Guild.roles g)) g) b σ).
Proof.
  intros Hne. apply map_eq. intros k. rewrite !alter_roles_lookup.
  destruct (decide (a = k)), (decide (b = k)), (σ !! k) as [g|]; simpl; try done.
  by rewrite (updated_roles_comm _ _ _ Hne).
Qed.

Lemma alter_roles_absorb ev1 ev2 (a : loc) (σ : store) :
  Role.id (GuildRoleUpdateEvent.role ev1) = Role.id (GuildRoleUpdateEvent.role ev2) →
  alter (λ g, Guild.set_roles (updated_roles ev2 (Guild.roles g)) g) a
    (alter (λ g, Guild.set_roles (updated_roles ev1 (Guild.roles g)) g) a σ)
  = alter (λ g, Guild.set_roles (updated_roles ev2 (Guild.roles g)) g) a σ.
Proof.
  intros Heq. apply map_eq. intros k. rewrite !alter_roles_lookup.
  destruct (decide (a = k)), (σ !! k) as [g|]; simpl; try done.
  by rewrite (updated_roles_absorb _ _ _ Heq).
Qed.

(** X2.  Role updates for roles with different ids commute: whichever
    of the two payloads the middleware handles first, both runs return
    their events and the store is the same in the end (whether they name
    the same guild, different guilds, or guilds that are not cached). *)
Theorem guild_role_updates_commute :
  ∀ (Gateway : Type) (from_dict : value → result GuildRoleUpdateEvent.t)
    (self : Client.t) (gateway : Gateway) (p1 p2 : GatewayDispatch.t)
    (σ : store) (ev1 ev2 : GuildRoleUpdateEvent.t),
    from_dict (GatewayDispatch.data p1) = Ok ev1 →
    from_dict (GatewayDispatch.data p2) = Ok ev2 →
    Role.id (GuildRoleUpdateEvent.role ev1)
    ≠ Role.id (GuildRoleUpdateEvent.role ev2) →
    ∃ σ1 σ2 σ12,
      guild_role_update_middleware from_dict self gateway p1 σ
      = Ok (("on_guild_role_update", ev1), σ1) ∧
      guild_role_update_middleware from_dict self gateway p2 σ1
      = Ok (("on_guild_role_update", ev2), σ12) ∧
      guild_role_update_middleware from_dict self gateway p2 σ
      = Ok (("on_guild_role_update", ev2), σ2) ∧
      guild_role_update_middleware from_dict self gateway p1 σ2
      = Ok (("on_guild_role_update", ev1), σ12).
Proof.
  intros Gateway from_dict self gateway p1 p2 σ ev1 ev2 Hd1 Hd2 Hne.
  eexists _, _, _.
  rewrite !(guild_role_update_middleware_Ok _ _ gateway p1 _ _ Hd1).
  rewrite !(guild_role_update_middleware_Ok _ _ gateway p2 _ _ Hd2).
  split; [reflexivity|]. split; [reflexivity|]. split; [reflexivity|].
  do 2 f_equal.
  destruct (Client.guilds self !! GuildRoleUpdateEvent.guild_id ev1) as [a|],
    (Client.guilds self !! GuildRoleUpdateEvent.guild_id ev2) as [b|];
    try done.
  symmetry. by apply alter_roles_comm.
Qed.

Lemma guild_role_updates_commute_witness :
  ∃ σ1 σ2 σ12,
    guild_role_update_middleware decode_GuildRoleUpdateEvent scenario_client tt
      scenario_payload scenario_store
    = Ok (("on_guild_role_update", scenario_event), σ1) ∧
    guild_role_update_middleware decode_GuildRoleUpdateEvent scenario_client tt
      other_role_payload σ1
    = Ok (("on_guild_role_update", other_role_event), σ12) ∧
    guild_role_update_middleware decode_GuildRoleUpdateEvent scenario_client tt
      other_role_payload scenario_store
    = Ok (("on_guild_role_update", other_role_event), σ2) ∧
    guild_role_update_middleware decode_GuildRoleUpdateEvent scenario_client tt
      scenario_payload σ2
    = Ok (("on_guild_role_update", scenario_event), σ12).
Proof.
  apply (guild_role_updates_commute unit decode_GuildRoleUpdateEvent
           scenario_client tt scenario_payload other_role_payload
           scenario_store scenario_event other_role_event).
  - vm_compute. reflexivity.
  - vm_compute. reflexivity.
  - vm_compute. discriminate.
Defined.

(** X3.  The last update of a role wins: for two payloads that name the
    same guild and the same role id, handling the first and then the
    second leaves the store that handling the second alone leaves. *)
Theorem guild_role_update_last_wins :
  ∀ (Gateway : Type) (from_dict : value → result GuildRoleUpdateEvent.t)
    (self : Client.t) (gateway : Gateway) (p1 p2 : GatewayDispatch.t)
    (σ : store) (ev1 ev2 : GuildRoleUpdateEvent.t),
    from_dict (GatewayDispatch.data p1) = Ok ev1 →
    from_dict (GatewayDispatch.data p2) = Ok ev2 →
    GuildRoleUpdateEvent.guild_id ev1 = GuildRoleUpdateEvent.guild_id ev2 →
    Role.id (GuildRoleUpdateEvent.role ev1)
    = Role.id (GuildRoleUpdateEvent.role ev2) →
    ∃ σ1 σ2,
      guild_role_update_middleware from_dict self gateway p1 σ
      = Ok (("on_guild_role_update", ev1), σ1) ∧
      guild_role_update_middleware from_dict self gateway p2 σ1
      = Ok (("on_guild_role_update", ev2), σ2) ∧
      guild_role_update_middleware from_dict self gateway p2 σ
      = Ok (("on_guild_role_update", ev2), σ2).
Proof.
  intros Gateway from_dict self gateway p1 p2 σ ev1 ev2 Hd1 Hd2 Hguild Hrole.
  eexists _, _.
  rewrite !(guild_role_update_middleware_Ok _ _ gateway p1 _ _ Hd1).
  rewrite !(guild_role_update_middleware_Ok _ _ gateway p2 _ _ Hd2).
  split; [reflexivity|]. split; [reflexivity|].
  do 2 f_equal. rewrite Hguild.
  destruct (Client.guilds self !! GuildRoleUpdateEvent.guild_id ev2) as [a|];
    [|done].
  symmetry. by apply alter_roles_absorb.
Qed.

Lemma guild_role_update_last_wins_witness :
  ∃ σ1 σ2,
    guild_role_update_middleware decode_GuildRoleUpdateEvent scenario_client tt
      scenario_payload scenario_store
    = Ok (("on_guild_role_update", scenario_event), σ1) ∧
    guild_role_update_middleware decode_GuildRoleUpdateEvent scenario_client tt
      renamed_again_payload σ1
    = Ok (("on_guild_role_update", renamed_again_event), σ2) ∧
    guild_role_update_middleware decode_GuildRoleUpdateEvent scenario_client tt
      renamed_again_payload scenario_store
    = Ok (("on_guild_role_update", renamed_again_event), σ2).
Proof.
  apply (guild_role_update_last_wins unit decode_GuildRoleUpdateEvent
           scenario_client tt scenario_payload renamed_again_payload
           scenario_store scenario_event renamed_again_event).
  - vm_compute. reflexivity.
  - vm_compute. reflexivity.
  - reflexivity.
  - reflexivity.
Defined.

(** ** The message-create middleware on data that is no dictionary *)

(** X4.  When [payload.data] is not a dictionary ([None], a number, a
    list, ...), the middleware raises [TypeError] from the dictionary
    display, whatever [UserMessage.from_dict] would do: the decoder is
    not reached. *)
Theorem message_create_middleware_not_a_mapping :
  ∀ (UserMessage : Type) (from_dict : value → result UserMessage)
    (self : Client.t) (payload : GatewayDispatch.t),
    is_mapping (GatewayDispatch.data payload) = false →
    message_create_middleware from_dict self payload
    = Raise (TypeError "object is not a mapping").
Proof.
  intros UserMessage from_dict self payload Hdata.
  unfold message_create_middleware.
  by destruct (GatewayDispatch.data payload).
Qed.

Lemma message_create_middleware_not_a_mapping_witness :
  message_create_middleware raw_attributes scenario_client empty_payload
  = Raise (TypeError "object is not a mapping").
Proof.
  apply (message_create_middleware_not_a_mapping
           (gmap string value) raw_attributes scenario_client empty_payload).
  reflexivity.
Defined.

(** ** [Guild.from_dict]: which dictionaries it hands to the parent class *)

(** X5.  [Guild.from_dict] hands the dictionary, unchanged, to the
    parent class's [from_dict] exactly when the key [unavailable] is
    absent or its value tests false.  In particular it does so when the
    key is absent and when its value is [None], [False], [0], the empty
    string, the empty list or the empty dictionary. *)
Theorem Guild_from_dict_delegates_iff :
  ∀ data : gmap string value,
    ((∀ super_from_dict : gmap string value → result Guild.t,
        Guild.from_dict super_from_dict data = super_from_dict data)
     ↔ truthy (dict_get data "unavailable" (VBool false)) = false)
    ∧
    (data !! "unavailable" = None
     ∨ data !! "unavailable" = Some VNone
     ∨ data !! "unavailable" = Some (VBool false)
     ∨ data !! "unavailable" = Some (VInt 0)
     ∨ data !! "unavailable" = Some (VStr "")
     ∨ data !! "unavailable" = Some (VList [])
     ∨ data !! "unavailable" = Some (VDict ∅) →
     ∀ super_from_dict : gmap string value → result Guild.t,
       Guild.from_dict super_from_dict data = super_from_dict data).
Proof.
  intros data. split; [split|].
  - intros Hall.
    destruct (truthy (dict_get data "unavailable" (VBool false))) eqn:Ht; [|done].
    specialize (Hall (λ _, Raise (KeyError "none"))).
    by rewrite (from_dict_unavailable _ _ Ht) in Hall.
  - intros Ht super_from_dict. by apply from_dict_available.
  - intros Hfalsy super_from_dict. apply from_dict_available.
    unfold dict_get.
    destruct Hfalsy as [->|[->|[->|[->|[->|[->| ->]]]]]]; try done.
Qed.

(** X6.  When [unavailable] is present and tests true, [Guild.from_dict]
    raises [NameError] for the name [UnavailableGuildError], whether or
    not the dictionary has an [id] and whatever the parent class's
    [from_dict] would do: it never raises [KeyError] for a missing [id],
    and it never returns. *)
Theorem Guild_from_dict_unavailable_raises_NameError :
  ∀ (super_from_dict : gmap string value → result Guild.t)
    (data : gmap string value) (v : value),
    data !! "unavailable" = Some v →
    truthy v = true →
    Guild.from_dict super_from_dict data
    = Raise (NameError "UnavailableGuildError").
Proof.
  intros super_from_dict data v Hv Ht.
  apply from_dict_unavailable. unfold dict_get. by rewrite Hv.
Qed.

Lemma Guild_from_dict_unavailable_raises_NameError_witness :
  Guild.from_dict (λ _, Raise (KeyError "unused")) {[ "unavailable" := VInt 1 ]}
  = Raise (NameError "UnavailableGuildError").
Proof.
  apply (Guild_from_dict_unavailable_raises_NameError _ _ (VInt 1)).
  - reflexivity.
  - reflexivity.
Defined.

(** ** The HTTP methods of [Guild] *)

Lemma load_GuildMember :
  load_global "GuildMember" = Raise (NameError "GuildMember").
Proof. vm_compute. reflexivity. Qed.

Lemma load_Channel :
  load_global "Channel" = Raise (NameError "Channel").
Proof. vm_compute. reflexivity. Qed.

(** Unfolding the sequencing of effects. *)
Ltac io_steps :=
  unfold http_get, http_patch, request, lift, mbind, io_bind, completion_bind;
  simpl.

(** X7.  [Guild.get_member] never returns and never sends a request:
    it raises [NameError] for the name [GuildMember], which [guild.py]
    imports only under [if TYPE_CHECKING:], before the call is made. *)
Theorem Guild_get_member_raises_NameError :
  ∀ (GuildMember_from_id : loc → Snowflake → Z → io Http.Request value)
    (self : Guild.t) (_id : Z) (log : list Http.Request),
    Guild_get_member GuildMember_from_id self _id log
    = (Failed (Builtin (NameError "GuildMember")), log).
Proof.
  intros GuildMember_from_id self _id log.
  unfold Guild_get_member. by rewrite load_GuildMember.
Qed.

(** X8.  [Guild.modify_member] sends exactly one request, a PATCH to
    [guilds/<guild id>/members/<member id>] with the keyword arguments as
    data, and never returns: when the request fails its exception is
    passed on, and when it succeeds (the member has been modified) the
    method raises [NameError] for the name [GuildMember]. *)
Theorem Guild_modify_member_sends_then_raises :
  ∀ (respond : list Http.Request → Http.Request → completion value)
    (GuildMember_from_dict : value → completion value)
    (self : Guild.t) (_id : Z) (kwargs : gmap string value)
    (log : list Http.Request),
    Guild_modify_member respond GuildMember_from_dict self _id kwargs log
    = (match respond log
               (Http.mkRequest (Guild._http self) Http.PATCH
                  ("guilds/" +:+ pretty (Guild.id self)
                   +:+ "/members/" +:+ pretty _id)
                  (Some kwargs))
       with
       | Returned _ => Failed (Builtin (NameError "GuildMember"))
       | Failed e => Failed e
       end,
       log ++ [Http.mkRequest (Guild._http self) Http.PATCH
                 ("guilds/" +:+ pretty (Guild.id self)
                  +:+ "/members/" +:+ pretty _id)
                 (Some kwargs)]).
Proof.
  intros respond GuildMember_from_dict self _id kwargs log.
  unfold Guild_modify_member. rewrite load_GuildMember. io_steps.
  by destruct (respond log _) as [data|e].
Qed.

Section from_id_facts.
Variable respond : list Http.Request → Http.Request → completion value.
Variable Channel_from_dict : value → completion value.
Variable Guild_init : gmap string value → completion Guild.t.
Implicit Types (client : Client.t) (_id : Z) (log : list Http.Request).

Lemma from_id_first_fails client _id log e :
  respond log (get_guild client _id) = Failed e →
  Guild_from_id respond Channel_from_dict Guild_init client _id log
  = (Failed e, log ++ [get_guild client _id]).
Proof.
  intros H1. unfold Guild_from_id. io_steps.
  fold (get_guild client _id). by rewrite H1.
Qed.

Lemma from_id_second_fails client _id log data e :
  respond log (get_guild client _id) = Returned data →
  respond (log ++ [get_guild client _id]) (get_channels client _id) = Failed e →
  Guild_from_id respond Channel_from_dict Guild_init client _id log
  = (Failed e, log ++ [get_guild client _id; get_channels client _id]).
Proof.
  intros H1 H2. unfold Guild_from_id. io_steps.
  fold (get_guild client _id). rewrite H1.
  fold (get_channels client _id). rewrite H2.
  by rewrite <- app_assoc.
Qed.

(** After both requests returned: the comprehension, the update and the
    constructor, none of which sends a request. *)
Lemma from_id_both_return client _id log data channel_data :
  respond log (get_guild client _id) = Returned data →
  respond (log ++ [get_guild client _id]) (get_channels client _id)
  = Returned channel_data →
  Guild_from_id respond Channel_from_dict Guild_init client _id log
  = (channels ← (items ← iterate (py_or channel_data (VList []));
                 for_each (channel_of Channel_from_dict client) items);
     d ← update_receiver data;
     Guild_init
       (<["channels" := VList channels]>
          (with_context (Client.ref client) (Client.http client) d)),
     log ++ [get_guild client _id; get_channels client _id]).
Proof.
  intros H1 H2. unfold Guild_from_id.
  unfold http_get, request, lift, mbind at 1 2 3 4, io_bind.
  fold (get_guild client _id). rewrite H1.
  fold (get_channels client _id). rewrite H2.
  rewrite <- app_assoc. simpl.
  destruct (iterate (py_or channel_data (VList [])) ≫= _) as [channels|e];
    [|done]. simpl.
  by destruct (update_receiver data).
Qed.

End from_id_facts.

(** X9.  [Guild.from_id] asks for the guild first and for its channels
    second, through the client's HTTP client, and sends nothing else.
    When the first request fails its exception is passed on and the
    second request is never sent; when the second fails its exception is
    passed on; whenever both return, exactly these two requests were
    sent, however the method ends. *)
Theorem Guild_from_id_requests :
  ∀ (respond : list Http.Request → Http.Request → completion value)
    (Channel_from_dict : value → completion value)
    (Guild_init : gmap string value → completion Guild.t)
    (client : Client.t) (_id : Z) (log : list Http.Request),
    (∀ e,
       respond log (get_guild client _id) = Failed e →
       Guild_from_id respond Channel_from_dict Guild_init client _id log
       = (Failed e, log ++ [get_guild client _id]))
    ∧
    (∀ data e,
       respond log (get_guild client _id) = Returned data →
       respond (log ++ [get_guild client _id]) (get_channels client _id)
       = Failed e →
       Guild_from_id respond Channel_from_dict Guild_init client _id log
       = (Failed e, log ++ [get_guild client _id; get_channels client _id]))
    ∧
    (∀ data channel_data,
       respond log (get_guild client _id) = Returned data →
       respond (log ++ [get_guild client _id]) (get_channels client _id)
       = Returned channel_data →
       (Guild_from_id respond Channel_from_dict Guild_init client _id log).2
       = log ++ [get_guild client _id; get_channels client _id]).
Proof.
  intros respond Channel_from_dict Guild_init client _id log.
  split; [|split].
  - intros e. apply from_id_first_fails.
  - intros data e. apply from_id_second_fails.
  - intros data channel_data H1 H2.
    by rewrite (from_id_both_return _ _ _ _ _ _ _ _ H1 H2).
Qed.

Lemma Guild_from_id_requests_witness :
  Guild_from_id server_down keep_channel build_scenario_guild
    scenario_client 1 []
  = (Failed (Builtin (ValueError "503")),
     [Http.mkRequest 2%positive Http.GET "/guilds/1" None]).
Proof.
  apply (proj1 (Guild_from_id_requests server_down keep_channel
                  build_scenario_guild scenario_client 1 [])).
  reflexivity.
Defined.

(** X10.  For a guild that has channels, [Guild.from_id] does not
    return: once both requests have returned and the channel list is not
    empty, it raises [NameError] for the name [Channel], which [guild.py]
    imports only under [if TYPE_CHECKING:]. *)
Theorem Guild_from_id_with_channels_raises_NameError :
  ∀ (respond : list Http.Request → Http.Request → completion value)
    (Channel_from_dict : value → completion value)
    (Guild_init : gmap string value → completion Guild.t)
    (client : Client.t) (_id : Z) (log : list Http.Request)
    (data i : value) (items : list value),
    respond log (get_guild client _id) = Returned data →
    respond (log ++ [get_guild client _id]) (get_channels client _id)
    = Returned (VList (i :: items)) →
    Guild_from_id respond Channel_from_dict Guild_init client _id log
    = (Failed (Builtin (NameError "Channel")),
       log ++ [get_guild client _id; get_channels client _id]).
Proof.
  intros respond Channel_from_dict Guild_init client _id log data i items H1 H2.
  rewrite (from_id_both_return _ _ _ _ _ _ _ _ H1 H2).
  unfold py_or, iterate, channel_of. simpl truthy. cbv iota.
  unfold for_each. by rewrite load_Channel.
Qed.

Lemma Guild_from_id_with_channels_raises_NameError_witness :
  Guild_from_id server_with_channels keep_channel build_scenario_guild
    scenario_client 1 []
  = (Failed (Builtin (NameError "Channel")),
     [Http.mkRequest 2%positive Http.GET "/guilds/1" None;
      Http.mkRequest 2%positive Http.GET "/guilds/1/channels" None]).
Proof.
  apply (Guild_from_id_with_channels_raises_NameError server_with_channels
           keep_channel build_scenario_guild scenario_client 1 [] guild_1
           (VDict {[ "id" := VStr "5" ]}) []).
  - reflexivity.
  - reflexivity.
Defined.

(** X11.  For a guild without channels (the channel request returns a
    value that tests false, such as [None] or an empty list) whose guild
    request returns a dictionary,
    [Guild.from_id] gives the constructor that dictionary with three
    entries set over whatever the dictionary had under these keys:
    [channels] is the empty list, [_client] the client and [_http] its
    HTTP client; every other key is passed as received.  The result is
    the constructor's. *)
Theorem Guild_from_id_without_channels :
  ∀ (respond : list Http.Request → Http.Request → completion value)
    (Channel_from_dict : value → completion value)
    (Guild_init : gmap string value → completion Guild.t)
    (client : Client.t) (_id : Z) (log : list Http.Request)
    (d : gmap string value) (channel_data : value),
    respond log (get_guild client _id) = Returned (VDict d) →
    respond (log ++ [get_guild client _id]) (get_channels client _id)
    = Returned channel_data →
    truthy channel_data = false →
    ∃ kwargs : gmap string value,
      Guild_from_id respond Channel_from_dict Guild_init client _id log
      = (Guild_init kwargs,
         log ++ [get_guild client _id; get_channels client _id]) ∧
      kwargs !! "channels" = Some (VList []) ∧
      kwargs !! "_client" = Some (VObject (Client.ref client)) ∧
      kwargs !! "_http" = Some (VObject (Client.http client)) ∧
      (∀ key, key ≠ "channels" → key ≠ "_client" → key ≠ "_http" →
              kwargs !! key = d !! key).
Proof.
  intros respond Channel_from_dict Guild_init client _id log d channel_data
    H1 H2 Hfalsy.
  eexists. split.
  - rewrite (from_id_both_return _ _ _ _ _ _ _ _ H1 H2).
    unfold py_or. rewrite Hfalsy. simpl. reflexivity.
  - unfold with_context. split; [by rewrite lookup_insert_eq|].
    split; [by rewrite lookup_insert_ne, lookup_insert_ne, lookup_insert_eq|].
    split; [by rewrite lookup_insert_ne, lookup_insert_eq|].
    intros key Hc Hcl Hh. by rewrite !lookup_insert_ne.
Qed.

Lemma Guild_from_id_without_channels_witness :
  ∃ kwargs : gmap string value,
    Guild_from_id server_without_channels keep_channel build_scenario_guild
      scenario_client 1 []
    = (Returned scenario_guild,
       [Http.mkRequest 2%positive Http.GET "/guilds/1" None;
        Http.mkRequest 2%positive Http.GET "/guilds/1/channels" None]) ∧
    kwargs !! "channels" = Some (VList []) ∧
    kwargs !! "id" = Some (VStr "1").
Proof.
  destruct (Guild_from_id_without_channels server_without_channels
              keep_channel build_scenario_guild scenario_client 1 []
              {[ "id" := VStr "1"; "channels" := VList [VStr "stale"] ]}
              (VList []) eq_refl eq_refl eq_refl)
    as (kwargs & Hrun & Hchannels & _ & _ & Hrest).
  exists kwargs. split; [exact Hrun|]. split; [exact Hchannels|].
  rewrite Hrest; [reflexivity|discriminate..].
Defined.

(** X12.  When the guild request returns something that is not a
    dictionary (for instance [None]) and the guild has no channels,
    [Guild.from_id] raises [AttributeError] from [data.update], after
    both requests. *)
Theorem Guild_from_id_not_a_dictionary :
  ∀ (respond : list Http.Request → Http.Request → completion value)
    (Channel_from_dict : value → completion value)
    (Guild_init : gmap string value → completion Guild.t)
    (client : Client.t) (_id : Z) (log : list Http.Request)
    (data channel_data : value),
    respond log (get_guild client _id) = Returned data →
    respond (log ++ [get_guild client _id]) (get_channels client _id)
    = Returned channel_data →
    is_mapping data = false →
    truthy channel_data = false →
    Guild_from_id respond Channel_from_dict Guild_init client _id log
    = (Failed (AttributeError "update"),
       log ++ [get_guild client _id; get_channels client _id]).
Proof.
  intros respond Channel_from_dict Guild_init client _id log data channel_data
    H1 H2 Hdata Hfalsy.
  rewrite (from_id_both_return _ _ _ _ _ _ _ _ H1 H2).
  unfold py_or. rewrite Hfalsy. simpl. by destruct data.
Qed.

Lemma Guild_from_id_not_a_dictionary_witness :
  Guild_from_id server_null keep_channel build_scenario_guild
    scenario_client 1 []
  = (Failed (AttributeError "update"),
     [Http.mkRequest 2%positive Http.GET "/guilds/1" None;
      Http.mkRequest 2%positive Http.GET "/guilds/1/channels" None]).
Proof.
  apply (Guild_from_id_not_a_dictionary server_null keep_channel
           build_scenario_guild scenario_client 1 [] VNone VNone);
    reflexivity.
Defined.

(** ** The command line entry point *)

(** X13.  [--init NAME] without [--path] (and without [--docs] or
    [--version]) makes [main] raise [TypeError]: [args.path] is [None]
    and is subscripted.  Nothing is printed or opened before that. *)
Theorem main_init_without_path_raises_TypeError :
  ∀ (__version__ : string) (args : Namespace.t) (log : list Effect),
    Namespace.docs args = false →
    Namespace.version args = false →
    given (Namespace.init args) = true →
    Namespace.path args = None →
    Main.main __version__ args log
    = (Failed (Builtin (TypeError "'NoneType' object is not subscriptable")),
       log).
Proof.
  intros v args log Hdocs Hversion Hinit Hpath.
  unfold Main.main. rewrite Hdocs, Hversion, Hinit, Hpath.
  by destruct (Namespace.init args) as [[|name rest]|].
Qed.

Lemma main_init_without_path_raises_TypeError_witness :
  Main.main "0.16.1" (Namespace.mk false false (Some ["bot"]) None) []
  = (Failed (Builtin (TypeError "'NoneType' object is not subscriptable")), []).
Proof.
  apply (main_init_without_path_raises_TypeError "0.16.1"
           (Namespace.mk false false (Some ["bot"]) None) []);
    reflexivity.
Defined.

(** X14.  [--init NAME --path DIR] (without [--docs] or [--version])
    returns normally and does nothing: [init] is a stub, so nothing is
    printed, opened or created, whatever the name and the path are. *)
Theorem main_init_does_nothing :
  ∀ (__version__ : string) (args : Namespace.t) (log : list Effect)
    (name dir : string) (names dirs : list string),
    Namespace.docs args = false →
    Namespace.version args = false →
    Namespace.init args = Some (name :: names) →
    Namespace.path args = Some (dir :: dirs) →
    Main.main __version__ args log = (Returned (), log).
Proof.
  intros v args log name dir names dirs Hdocs Hversion Hinit Hpath.
  unfold Main.main. by rewrite Hdocs, Hversion, Hinit, Hpath.
Qed.

Lemma main_init_does_nothing_witness :
  Main.main "0.16.1" (Namespace.mk false false (Some ["bot"]) (Some ["."])) []
  = (Returned (), []).
Proof.
  apply (main_init_does_nothing "0.16.1"
           (Namespace.mk false false (Some ["bot"]) (Some ["."])) []
           "bot" "." [] []);
    reflexivity.
Defined.

(** X15.  Whatever the options, [main] does at most one thing, chosen
    in the order docs, version, init, help: with [--docs] it only opens
    the documentation, also when other options are given; without
    [--docs] but with [--version] it only prints the version; it fails
    only on the [--init] path, and then it has done nothing. *)
Theorem main_does_at_most_one_thing :
  ∀ (__version__ : string) (args : Namespace.t) (log : list Effect),
    ∃ (res : completion unit) (effects : list Effect),
      Main.main __version__ args log = (res, log ++ effects) ∧
      length effects ≤ 1 ∧
      (Namespace.docs args = true →
       res = Returned () ∧ effects = [OpenBrowser "https://docs.pincer.dev"]) ∧
      (Namespace.docs args = false → Namespace.version args = true →
       res = Returned () ∧ effects = [Print ("Pincer " +:+ __version__)]) ∧
      (Namespace.docs args = false → Namespace.version args = false →
       given (Namespace.init args) = false →
       res = Returned () ∧ effects = [PrintHelp]) ∧
      (∀ e, res = Failed e →
            effects = [] ∧ Namespace.docs args = false ∧
            Namespace.version args = false ∧
            given (Namespace.init args) = true).
Proof.
  intros v [docs version init path] log. unfold Main.main. simpl.
  destruct docs.
  { exists (Returned ()), [OpenBrowser "https://docs.pincer.dev"].
    repeat split; try done. }
  destruct version.
  { exists (Returned ()), [Print ("Pincer " +:+ v)].
    repeat split; try done. }
  destruct init as [[|name names]|]; simpl.
  - exists (Returned ()), [PrintHelp]. repeat split; try done.
  - destruct path as [[|dir dirs]|].
    + exists (Failed (IndexError "list index out of range")), [].
      rewrite app_nil_r. repeat split; try done; simpl; lia.
    + exists (Returned ()), []. rewrite app_nil_r.
      repeat split; try done; simpl; lia.
    + exists (Failed (Builtin
                (TypeError "'NoneType' object is not subscriptable"))), [].
      rewrite app_nil_r. repeat split; try done; simpl; lia.
  - exists (Returned ()), [PrintHelp]. repeat split; try done.
Qed.

(** ** The enumerations of [guild.py] *)

(** X16.  In each [IntEnum] class of [guild.py] different members have
    different integer values, so no member is an alias of another and a
    value names at most one member. *)
Theorem guild_enum_values_are_distinct :
  (∀ x y, PremiumTier.value x = PremiumTier.value y → x = y) ∧
  (∀ x y, GuildNSFWLevel.value x = GuildNSFWLevel.value y → x = y) ∧
  (∀ x y, ExplicitContentFilterLevel.value x
          = ExplicitContentFilterLevel.value y → x = y) ∧
  (∀ x y, MFALevel.value x = MFALevel.value y → x = y) ∧
  (∀ x y, VerificationLevel.value x = VerificationLevel.value y → x = y) ∧
  (∀ x y, DefaultMessageNotificationLevel.value x
          = DefaultMessageNotificationLevel.value y → x = y) ∧
  (∀ x y, SystemChannelFlags.value x = SystemChannelFlags.value y → x = y).
Proof.
  repeat split; intros [] []; simpl; intros H; try reflexivity; discriminate H.
Qed.

(** X17.  The system channel flags are single bits, pairwise disjoint:
    each value is a power of two below 8, and the bitwise and of two
    different flags is 0, so flags can be combined and tested one by
    one. *)
Theorem system_channel_flags_are_disjoint_bits :
  (∀ x, ∃ k : Z, (0 ≤ k < 3)%Z ∧ SystemChannelFlags.value x = (2 ^ k)%Z) ∧
  (∀ x y, x ≠ y →
          Z.land (SystemChannelFlags.value x) (SystemChannelFlags.value y) = 0%Z).
Proof.
  split.
  - intros []; [exists 0%Z | exists 1%Z | exists 2%Z]; split; (lia || reflexivity).
  - intros [] [] Hne; try reflexivity; by destruct Hne.
Qed.
